(** * anonymizeDICOM: a shallow embedding of [anonymize.py]

    The program walks a DICOMDIR index or a directory tree, overwrites a
    fixed set of identifying DICOM elements in every image file and saves
    the result under an output directory.

    Layout of this development:
    - [Py]: the few pieces of Python's [str] and [os.path] the program uses;
    - [Dicom]: data sets as finite maps from tags to data elements;
    - [OS]: a file-system tree, the exception type and the state-and-error
      monad in which the program runs;
    - [Anonymize]: the five functions of [anonymize.py], in source order;
    - the properties of the program.

    Modelling conventions.  The file system is a finite tree of
    directories, regular files and special files (no symbolic links); the
    working directory is the root; paths are resolved lexically.  The
    pydicom codec is a black box: a regular file either holds a data set or
    bytes that do not parse.  The world also records the history of
    successful [save_as] calls, which lets a property speak about what each
    call wrote, not only about the final tree. *)

From Stdlib Require Import Ascii String.
From stdpp Require Import base option list strings pretty gmap.

Set Warnings "-register-all".
Set Default Proof Using "Type".

Local Open Scope string_scope.

(** ** Python strings and [posixpath] *)

Module Py.

(** [s.startswith("/")] and [s.endswith("/")]. *)
Definition startswith_sep (s : string) : bool := String.prefix "/" s.

Fixpoint endswith_sep (s : string) : bool :=
  match s with
  | EmptyString => false
  | String c EmptyString => Ascii.eqb c "/"%char
  | String _ s' => endswith_sep s'
  end.

(** [s[-n:]]: the last [n] characters, the whole string when it is shorter. *)
Definition slice_last (n : nat) (s : string) : string :=
  String.substring (String.length s - n) n s.

(** [s.split("/")]. *)
Fixpoint split_sep (s : string) : list string :=
  match s with
  | EmptyString => [EmptyString]
  | String c s' =>
      if Ascii.eqb c "/"%char then EmptyString :: split_sep s'
      else match split_sep s' with
           | [] => [String c EmptyString]
           | w :: ws => String c w :: ws
           end
  end.

(** [s.lstrip("/")] and [s.rstrip("/")]. *)
Fixpoint lstrip_sep (s : string) : string :=
  match s with
  | String c s' => if Ascii.eqb c "/"%char then lstrip_sep s' else s
  | EmptyString => EmptyString
  end.

Definition rstrip_sep (s : string) : string :=
  String.rev (lstrip_sep (String.rev s)).

(** [str(i)] for a non-negative integer. *)
Definition str (i : nat) : string := pretty i.

(** [os.path.join(a, b)]. *)
Definition os_path_join (a b : string) : string :=
  if startswith_sep b then b
  else if bool_decide (a = "") || endswith_sep a then a +:+ b
  else a +:+ "/" +:+ b.

(** [os.path.join(a, b, c)]: the same loop, one more round. *)
Definition os_path_join3 (a b c : string) : string :=
  os_path_join (os_path_join a b) c.

(** [os.path.split(p)]: everything up to the last slash, and the rest;
    trailing slashes are stripped from the head unless it is all slashes. *)
Definition os_path_split (p : string) : string * string :=
  let comps := split_sep p in
  let tail := List.last comps "" in
  let head := String.substring 0 (String.length p - String.length tail) p in
  let head := if bool_decide (lstrip_sep head = "") then head
              else rstrip_sep head in
  (head, tail).

(** The component loop of [os.path.normpath]. *)
Fixpoint normpath_comps (initial_slashes : bool) (new_comps comps : list string)
  : list string :=
  match comps with
  | [] => new_comps
  | comp :: comps' =>
      if bool_decide (comp = "") || bool_decide (comp = ".")
      then normpath_comps initial_slashes new_comps comps'
      else if negb (bool_decide (comp = ".."))
              || (negb initial_slashes && bool_decide (new_comps = []))
              || bool_decide (List.last new_comps "" = "..")
      then normpath_comps initial_slashes (new_comps ++ [comp])%list comps'
      else normpath_comps initial_slashes (removelast new_comps) comps'
  end.

(** [os.path.normpath(path)] (two leading slashes are treated as one). *)
Definition os_path_normpath (path : string) : string :=
  if bool_decide (path = "") then "."
  else
    let initial_slashes := startswith_sep path in
    let comps := normpath_comps initial_slashes [] (split_sep path) in
    let path' := String.concat "/" comps in
    let path' := if initial_slashes then "/" +:+ path' else path' in
    if bool_decide (path' = "") then "." else path'.

(** [os.path.abspath(path)], the working directory being the root. *)
Definition os_path_abspath (path : string) : string :=
  os_path_normpath (os_path_join "/" path).

(** [len(os.path.commonprefix([l1, l2]))] on lists of components. *)
Fixpoint common_len (l1 l2 : list string) : nat :=
  match l1, l2 with
  | x :: l1', y :: l2' => if bool_decide (x = y) then S (common_len l1' l2') else 0
  | _, _ => 0
  end.

(** [os.path.relpath(path, start)]; [None] is the [ValueError] raised for
    an empty [path]. *)
Definition os_path_relpath (path start : string) : option string :=
  if bool_decide (path = "") then None
  else
    let start_tail := lstrip_sep (os_path_abspath start) in
    let path_tail := lstrip_sep (os_path_abspath path) in
    let start_list := if bool_decide (start_tail = "") then [] else split_sep start_tail in
    let path_list := if bool_decide (path_tail = "") then [] else split_sep path_tail in
    let i := common_len start_list path_list in
    let rel_list := (replicate (List.length start_list - i) ".." ++ drop i path_list)%list in
    Some (if bool_decide (rel_list = []) then "." else String.concat "/" rel_list).

(** [str(Path( *segments))]: the segments are joined as by [os.path.join],
    empty and [.] components are dropped, [..] is kept. *)
Definition Path (segments : list string) : string :=
  let raw := foldl os_path_join "" segments in
  let parts := filter (λ c, c ≠ "" ∧ c ≠ ".") (split_sep raw) in
  let body := String.concat "/" parts in
  if startswith_sep raw then "/" +:+ body
  else if bool_decide (body = "") then "." else body.

End Py.

(** ** DICOM data sets *)

Module Dicom.

(** A tag is a (group, element) pair, as in [(0x0008, 0x0090)]. *)
Definition Tag : Type := N * N.

(** An element value: one string, or several (value multiplicity above 1). *)
Inductive Value :=
  | VStr (s : string)
  | VMulti (l : list string).

#[global] Instance Value_eq_dec : EqDecision Value.
Proof. solve_decision. Defined.

Record DataElement := mkDataElement { VR : string; value : Value }.

Abbreviation Dataset := (gmap Tag DataElement).

(** A directory record of a DICOMDIR: its own elements and its children
    (PATIENT, STUDY, SERIES, IMAGE from top to bottom). *)
Inductive DirectoryRecord :=
  | Record_ (ds : Dataset) (children : list DirectoryRecord).

Definition record_ds (r : DirectoryRecord) : Dataset :=
  match r with Record_ ds _ => ds end.

Definition children (r : DirectoryRecord) : list DirectoryRecord :=
  match r with Record_ _ cs => cs end.

(** What [dcmread] returns.  A DICOMDIR is a file data set that also
    carries its patient records ([pydicom.dicomdir.DicomDir] is a
    subclass of [FileDataset]); for an image file [patient_records] is
    [None]. *)
Record FileDataset := mkFileDataset {
  preamble : string;
  file_meta : Dataset;
  elements : Dataset;
  patient_records : option (list DirectoryRecord)
}.

Definition with_elements (f : FileDataset) (ds : Dataset) : FileDataset :=
  {| preamble := preamble f; file_meta := file_meta f; elements := ds;
     patient_records := patient_records f |}.

Definition with_patient_records (f : FileDataset) (rs : list DirectoryRecord)
  : FileDataset :=
  {| preamble := preamble f; file_meta := file_meta f; elements := elements f;
     patient_records := Some rs |}.

(** The entries of pydicom's data dictionary that the program names. *)
Definition tag_for_keyword (keyword : string) : option Tag :=
  if bool_decide (keyword = "PatientID") then Some (0x0010, 0x0020)%N
  else if bool_decide (keyword = "PatientName") then Some (0x0010, 0x0010)%N
  else if bool_decide (keyword = "PatientBirthDate") then Some (0x0010, 0x0030)%N
  else if bool_decide (keyword = "InstitutionName") then Some (0x0008, 0x0080)%N
  else if bool_decide (keyword = "InstitutionAddress") then Some (0x0008, 0x0081)%N
  else if bool_decide (keyword = "StationName") then Some (0x0008, 0x1010)%N
  else if bool_decide (keyword = "DirectoryRecordType") then Some (0x0004, 0x1430)%N
  else if bool_decide (keyword = "ReferencedFileID") then Some (0x0004, 0x1500)%N
  else None.

(** [elem.VM]: 0 for an empty value, 1 for a single string, the number of
    values otherwise. *)
Definition VM (e : DataElement) : nat :=
  match value e with
  | VStr s => if bool_decide (s = "") then 0 else 1
  | VMulti l => List.length l
  end.

(** [elem.value = s]: the value is replaced, the VR is kept. *)
Definition set_value (s : string) (e : DataElement) : DataElement :=
  {| VR := VR e; value := VStr s |}.

End Dicom.

Import Dicom.

(** ** The operating system and the codec *)

Module OS.

Inductive exn :=
  | IOError (msg : string)
  | SystemExit (code : Z)
  | KeyError (t : Tag)
  | AttributeError (name : string)
  | TypeError
  | ValueError
  | InvalidDicomError (path : string)
  | FileNotFoundError (path : string)
  | FileExistsError (path : string)
  | IsADirectoryError (path : string)
  | NotADirectoryError (path : string)
  | OSError (path : string)
  | OutOfFuel.

Inductive Result (A : Type) :=
  | Ok (a : A)
  | Raise (e : exn).
Arguments Ok {A} a.
Arguments Raise {A} e.

(** *** The file-system tree *)

Inductive content :=
  | Garbage (bytes : string)
  | Dicom (f : FileDataset).

Inductive node :=
  | File (c : content)
  | Special
  | Dir (entries : gmap string node).

Definition is_dir (n : node) : bool :=
  match n with Dir _ => true | _ => false end.

Definition is_file (n : node) : bool :=
  match n with File _ => true | _ => false end.

Fixpoint tree_lookup (cp : list string) (n : node) : option node :=
  match cp with
  | [] => Some n
  | c :: cp' =>
      match n with
      | Dir es => es !! c ≫= tree_lookup cp'
      | _ => None
      end
  end.

(** Create every missing directory along [cp]; [None] when a file or a
    special file is in the way. *)
Fixpoint tree_mkdirs (cp : list string) (n : node) : option node :=
  match n with
  | Dir es =>
      match cp with
      | [] => Some n
      | c :: cp' =>
          child ← tree_mkdirs cp' (default (Dir ∅) (es !! c));
          Some (Dir (<[c := child]> es))
      end
  | _ => None
  end.

(** Put [new] at [cp], whose parent must be an existing directory. *)
Fixpoint tree_write (cp : list string) (new : node) (n : node) : option node :=
  match cp, n with
  | [c], Dir es => Some (Dir (<[c := new]> es))
  | c :: cp', Dir es =>
      child ← es !! c;
      child' ← tree_write cp' new child;
      Some (Dir (<[c := child']> es))
  | _, _ => None
  end.

(** Remove the node at [cp] with everything below it. *)
Fixpoint tree_remove (cp : list string) (n : node) : option node :=
  match cp, n with
  | [c], Dir es =>
      match es !! c with
      | Some _ => Some (Dir (delete c es))
      | None => None
      end
  | c :: cp', Dir es =>
      child ← es !! c;
      child' ← tree_remove cp' child;
      Some (Dir (<[c := child']> es))
  | _, _ => None
  end.

(** *** Paths *)

Fixpoint resolve_comps (acc comps : list string) : list string :=
  match comps with
  | [] => acc
  | c :: comps' =>
      if bool_decide (c = "") || bool_decide (c = ".") then resolve_comps acc comps'
      else if bool_decide (c = "..") then resolve_comps (removelast acc) comps'
      else resolve_comps (acc ++ [c])%list comps'
  end.

(** The components a path string names from the root, and whether the
    string insists on a directory (it ends in a slash, [.] or [..]).
    The empty string names nothing. *)
Definition resolve (p : string) : option (list string * bool) :=
  if bool_decide (p = "") then None
  else
    let comps := Py.split_sep p in
    let l := List.last comps "" in
    Some (resolve_comps [] comps,
          bool_decide (l = "") || bool_decide (l = ".") || bool_decide (l = "..")).

(** *** Worlds and the monad *)

(** The state of the machine: the tree, and the history of the data sets
    that [save_as] wrote, oldest first. *)
Record World := mkWorld {
  fs : node;
  saved : list (string * FileDataset)
}.

Definition M (A : Type) : Type := World → Result A * World.

Definition ret {A} (a : A) : M A := λ w, (Ok a, w).
Definition raise {A} (e : exn) : M A := λ w, (Raise e, w).
Definition bind {A B} (m : M A) (k : A → M B) : M B :=
  λ w, match m w with
       | (Ok a, w') => k a w'
       | (Raise e, w') => (Raise e, w')
       end.
Definition lift {A} (r : Result A) : M A := λ w, (r, w).

End OS.

Import OS.

Declare Scope py_scope.
Delimit Scope py_scope with py.
Notation "x <- c ;; k" := (bind c (λ x, k))
  (at level 100, c at next level, right associativity) : py_scope.
Notation "c ;; k" := (bind c (λ _, k))
  (at level 100, right associativity) : py_scope.
Local Open Scope py_scope.

(** [for x in l: body(x)]. *)
Fixpoint for_ {A} (l : list A) (body : A → M unit) : M unit :=
  match l with
  | [] => ret tt
  | x :: l' => body x ;; for_ l' body
  end.

(** [[f(x) for x in l]], where [f] may raise. *)
Fixpoint mapM {A B} (f : A → M B) (l : list A) : M (list B) :=
  match l with
  | [] => ret []
  | x :: l' => y <- f x ;; ys <- mapM f l' ;; ret (y :: ys)
  end.

(** [[f(i, x) for i, x in enumerate(l)]], counting from [i]. *)
Fixpoint mapM_enumerate {A B} (f : nat → A → M B) (i : nat) (l : list A)
  : M (list B) :=
  match l with
  | [] => ret []
  | x :: l' => y <- f i x ;; ys <- mapM_enumerate f (S i) l' ;; ret (y :: ys)
  end.

(** [[x for x in l if test(x)]], where [test] may raise. *)
Fixpoint filterM {A} (test : A → M bool) (l : list A) : M (list A) :=
  match l with
  | [] => ret []
  | x :: l' =>
      b <- test x ;; xs <- filterM test l' ;; ret (if b : bool then x :: xs else xs)
  end.

(** ** System calls and codec calls *)

Module Sys.

Definition lookup_path (w : World) (p : string) : option (node * bool) :=
  match resolve p with
  | Some (cp, d) =>
      match tree_lookup cp (fs w) with
      | Some n => Some (n, d)
      | None => None
      end
  | None => None
  end.

Definition path_exists (w : World) (p : string) : bool :=
  match lookup_path w p with
  | Some (Dir _, _) => true
  | Some (_, d) => negb d
  | None => false
  end.

Definition path_isdir (w : World) (p : string) : bool :=
  match lookup_path w p with
  | Some (Dir _, _) => true
  | _ => false
  end.

Definition path_isfile (w : World) (p : string) : bool :=
  match lookup_path w p with
  | Some (File _, false) => true
  | _ => false
  end.

Definition os_path_exists (p : string) : M bool := λ w, (Ok (path_exists w p), w).
Definition os_path_isdir (p : string) : M bool := λ w, (Ok (path_isdir w p), w).
Definition os_path_isfile (p : string) : M bool := λ w, (Ok (path_isfile w p), w).

(** [os.makedirs(p, exist_ok=True)]. *)
Definition os_makedirs (p : string) : M unit := λ w,
  match resolve p with
  | None => (Raise (FileNotFoundError p), w)
  | Some (cp, _) =>
      match tree_mkdirs cp (fs w) with
      | Some t => (Ok tt, {| fs := t; saved := saved w |})
      | None =>
          (Raise (match tree_lookup cp (fs w) with
                  | Some _ => FileExistsError p
                  | None => NotADirectoryError p
                  end), w)
      end
  end.

(** [shutil.rmtree(p)].  The root cannot be removed: its content goes,
    then the final [rmdir] fails. *)
Definition shutil_rmtree (p : string) : M unit := λ w,
  match resolve p with
  | None => (Raise (FileNotFoundError p), w)
  | Some (cp, _) =>
      match tree_lookup cp (fs w) with
      | Some (Dir _) =>
          match cp with
          | [] => (Raise (OSError p), {| fs := Dir ∅; saved := saved w |})
          | _ =>
              match tree_remove cp (fs w) with
              | Some t => (Ok tt, {| fs := t; saved := saved w |})
              | None => (Raise (OSError p), w)
              end
          end
      | Some _ => (Raise (NotADirectoryError p), w)
      | None => (Raise (FileNotFoundError p), w)
      end
  end.

(** [dcmread(p)]. *)
Definition dcmread (p : string) : M FileDataset := λ w,
  match lookup_path w p with
  | Some (File (Dicom f), false) => (Ok f, w)
  | Some (File (Garbage _), false) => (Raise (InvalidDicomError p), w)
  | Some (File _, true) => (Raise (NotADirectoryError p), w)
  | Some (Dir _, _) => (Raise (IsADirectoryError p), w)
  | Some (Special, _) => (Raise (InvalidDicomError p), w)
  | None => (Raise (FileNotFoundError p), w)
  end.

(** [read_dicomdir(p)]: [dcmread], then the check that the file is a
    media storage directory. *)
Definition read_dicomdir (p : string) : M FileDataset :=
  ds <- dcmread p ;;
  match patient_records ds with
  | Some _ => ret ds
  | None => raise (InvalidDicomError p)
  end.

(** [f.save_as(p)]: opens [p] for writing, which creates or truncates a
    regular file and fails on a directory. *)
Definition save_as (f : FileDataset) (p : string) : M unit := λ w,
  match resolve p with
  | None => (Raise (FileNotFoundError p), w)
  | Some (cp, d) =>
      match tree_lookup cp (fs w) with
      | Some (Dir _) => (Raise (IsADirectoryError p), w)
      | Some Special =>
          if d then (Raise (NotADirectoryError p), w)
          else (Ok tt, {| fs := fs w; saved := (saved w ++ [(p, f)])%list |})
      | Some (File _) =>
          if d then (Raise (NotADirectoryError p), w)
          else match tree_write cp (File (Dicom f)) (fs w) with
               | Some t => (Ok tt, {| fs := t; saved := (saved w ++ [(p, f)])%list |})
               | None => (Raise (FileNotFoundError p), w)
               end
      | None =>
          if d then (Raise (IsADirectoryError p), w)
          else match tree_write cp (File (Dicom f)) (fs w) with
               | Some t => (Ok tt, {| fs := t; saved := (saved w ++ [(p, f)])%list |})
               | None => (Raise (FileNotFoundError p), w)
               end
      end
  end.

(** One [os.scandir]: the names of the sub-directories and of the other
    entries of a directory; [None] when [top] is not a directory. *)
Definition scandir (w : World) (top : string) : option (list string * list string) :=
  match lookup_path w top with
  | Some (Dir es, _) =>
      let entries := map_to_list es in
      Some ((filter (λ e, is_dir e.2 = true) entries).*1,
            (filter (λ e, is_dir e.2 = false) entries).*1)
  | _ => None
  end.

(** [for (dirpath, dirnames, filenames) in os.walk(top): body].  The
    generator is lazy: each directory is listed when the loop reaches it,
    in the world the earlier iterations left; a directory that cannot be
    listed is passed over.  [stack] holds the directories still to visit;
    [fuel] bounds their number. *)
Fixpoint walk_for (fuel : nat) (stack : list string)
    (body : string → list string → list string → M unit) : M unit :=
  match fuel with
  | 0 => match stack with [] => ret tt | _ => raise OutOfFuel end
  | S fuel' =>
      match stack with
      | [] => ret tt
      | top :: stack' => λ w,
          match scandir w top with
          | None => walk_for fuel' stack' body w
          | Some (dirs, nondirs) =>
              (body top dirs nondirs ;;
               walk_for fuel' (map (Py.os_path_join top) dirs ++ stack')%list body) w
          end
      end
  end.

(** [ds.data_element(keyword).value = s]. *)
Definition set_keyword_value (keyword s : string) (ds : Dataset) : Result Dataset :=
  match tag_for_keyword keyword with
  | None => Raise (AttributeError "value")
  | Some t =>
      match ds !! t with
      | Some e => Ok (<[t := set_value s e]> ds)
      | None => Raise (KeyError t)
      end
  end.

(** [if t in ds: ds[t].value = s]. *)
Definition set_value_if_present (t : Tag) (s : string) (ds : Dataset) : Dataset :=
  match ds !! t with
  | Some e => <[t := set_value s e]> ds
  | None => ds
  end.

(** [ds.keyword], the attribute access. *)
Definition getattr (ds : Dataset) (keyword : string) : Result Value :=
  match tag_for_keyword keyword with
  | Some t =>
      match ds !! t with
      | Some e => Ok (value e)
      | None => Raise (AttributeError keyword)
      end
  | None => Raise (AttributeError keyword)
  end.

(** [ds[keyword]]. *)
Definition getitem (ds : Dataset) (keyword : string) : Result DataElement :=
  match tag_for_keyword keyword with
  | Some t =>
      match ds !! t with
      | Some e => Ok e
      | None => Raise (KeyError t)
      end
  | None => Raise ValueError
  end.

End Sys.

Import Sys.

(** ** The program: [anonymize.py] *)

Module Anonymize.

(** [fname[-len("DICOMDIR"):] == "DICOMDIR" and os.path.isfile(fname)]. *)
Definition isDICOMDIR (fname : string) : M bool :=
  if bool_decide (Py.slice_last (String.length "DICOMDIR") fname = "DICOMDIR")
  then os_path_isfile fname
  else ret false.

(** One assignment [instance.data_element(keyword).value = s]. *)
Definition assign (keyword s : string) (instance : FileDataset) : M FileDataset :=
  ds <- lift (set_keyword_value keyword s (elements instance)) ;;
  ret (with_elements instance ds).

(** One guarded assignment [if t in instance: instance[t].value = s]. *)
Definition assign_if_present (t : Tag) (s : string) (instance : FileDataset)
  : FileDataset :=
  with_elements instance (set_value_if_present t s (elements instance)).

Definition anonymiseImageFile
    (fname PatientID PatientName PatientBirthDate : string) : M FileDataset :=
  instance <- dcmread fname ;;
  instance <- assign "PatientID" PatientID instance ;;
  instance <- assign "PatientName" PatientName instance ;;
  instance <- assign "PatientBirthDate" PatientBirthDate instance ;;
  instance <- assign "InstitutionName" "REMOVED" instance ;;
  instance <- assign "InstitutionAddress" "REMOVED" instance ;;
  instance <- assign "StationName" "REMOVED" instance ;;
  let instance := assign_if_present (0x0008, 0x0090)%N "REMOVED" instance in
  let instance := assign_if_present (0x0008, 0x1048)%N "REMOVED" instance in
  let instance := assign_if_present (0x0032, 0x1032)%N "REMOVED" instance in
  ret instance.

(** [[ii for ii in records if ii.DirectoryRecordType == ty]]. *)
Definition records_of_type (ty : string) (records : list DirectoryRecord)
  : M (list DirectoryRecord) :=
  filterM (λ ii, v <- lift (getattr (record_ds ii) "DirectoryRecordType") ;;
                 ret (bool_decide (v = VStr ty))) records.

(** [[ee.value] if ee.VM == 1 else ee.value], the arguments of [Path].  A
    one-element multi-value would reach [Path] as a list inside a list. *)
Definition segments (ee : DataElement) : Result (list string) :=
  if bool_decide (VM ee = 1)
  then match value ee with
       | VStr s => Ok [s]
       | VMulti _ => Raise TypeError
       end
  else match value ee with
       | VStr _ => Ok []
       | VMulti l => Ok l
       end.

(** The body of [for p in paths] (source lines 126 to 143). *)
Definition for_path (dicomdir_dirname output_path new_ID new_name new_dob : string)
    (p : string) : M unit :=
  let '(dirname, fname) := Py.os_path_split p in
  let output_image_directory := Py.os_path_join output_path dirname in
  os_makedirs output_image_directory ;;
  let input_image_filename := Py.os_path_join3 dicomdir_dirname dirname fname in
  b <- os_path_isfile input_image_filename ;;
  if b : bool then
    instance <- anonymiseImageFile input_image_filename new_ID new_name new_dob ;;
    let output_image_filename := Py.os_path_join output_image_directory fname in
    save_as instance output_image_filename
  else ret tt.

(** The body of [for series in all_series]. *)
Definition for_series (dicomdir_dirname output_path new_ID new_name new_dob : string)
    (series : DirectoryRecord) : M unit :=
  images <- records_of_type "IMAGE" (children series) ;;
  elems <- mapM (λ ii, lift (getitem (record_ds ii) "ReferencedFileID")) images ;;
  paths <- mapM (λ ee, lift (segments ee)) elems ;;
  let paths := map Py.Path paths in
  for_ paths (for_path dicomdir_dirname output_path new_ID new_name new_dob).

(** The body of [for study in studies]. *)
Definition for_study (dicomdir_dirname output_path new_ID new_name new_dob : string)
    (study : DirectoryRecord) : M unit :=
  all_series <- records_of_type "SERIES" (children study) ;;
  for_ all_series (for_series dicomdir_dirname output_path new_ID new_name new_dob).

(** The replacement identifier of patient [i] among [n]. *)
Definition new_identifier (n i : nat) : string :=
  if bool_decide (1 < n) then "REMOVED - " +:+ Py.str i else "REMOVED".

(** The body of [for i, dicomdir_patient in enumerate(...)]; [n] is
    [len(dicom_dir.patient_records)].  The record is updated in place in
    the source; here the updated record is returned. *)
Definition for_patient (dicomdir_dirname output_path : string) (n : nat)
    (i : nat) (dicomdir_patient : DirectoryRecord) : M DirectoryRecord :=
  let ds := record_ds dicomdir_patient in
  old_ID <- lift (getattr ds "PatientID") ;;
  old_name <- lift (getattr ds "PatientName") ;;
  old_dob <- lift (getattr ds "PatientBirthDate") ;;
  let new_ID := new_identifier n i in
  let new_name := new_identifier n i in
  let new_dob := "99991231" in
  ds <- lift (set_keyword_value "PatientID" new_ID ds) ;;
  ds <- lift (set_keyword_value "PatientName" new_name ds) ;;
  ds <- lift (set_keyword_value "PatientBirthDate" new_dob ds) ;;
  studies <- records_of_type "STUDY" (children dicomdir_patient) ;;
  for_ studies (for_study dicomdir_dirname output_path new_ID new_name new_dob) ;;
  ret (Record_ ds (children dicomdir_patient)).

Definition anonymiseDICOMDIR (fname output_path : string) : M FileDataset :=
  dicom_dir <- read_dicomdir fname ;;
  let '(dicomdir_dirname, _) := Py.os_path_split fname in
  let records := default [] (patient_records dicom_dir) in
  records <- mapM_enumerate
               (for_patient dicomdir_dirname output_path (List.length records))
               0 records ;;
  ret (with_patient_records dicom_dir records).

(** The body of [for image_filename in filenames] (source lines 165 to 173). *)
Definition for_image_filename (dirpath output_image_directory : string)
    (image_filename : string) : M unit :=
  let input_image_filename := Py.os_path_join dirpath image_filename in
  instance <- anonymiseImageFile input_image_filename "REMOVED" "REMOVED" "99991231" ;;
  let output_image_filename := Py.os_path_join output_image_directory image_filename in
  save_as instance output_image_filename.

(** The body of the loop over [walk(fname)]. *)
Definition for_directory (fname output_path : string)
    (dirpath : string) (dirnames filenames : list string) : M unit :=
  if bool_decide (0 < List.length filenames) && bool_decide (List.length dirnames = 0)
  then
    match Py.os_path_relpath dirpath fname with
    | None => raise ValueError
    | Some rel =>
        let output_image_directory := Py.os_path_join output_path rel in
        os_makedirs output_image_directory ;;
        for_ filenames (for_image_filename dirpath output_image_directory)
    end
  else ret tt.

Definition anonymiseDirectory (fuel : nat) (fname output_path : string) : M unit :=
  walk_for fuel [fname] (for_directory fname output_path).

(** The four branches of [main], and its final [else]. *)
Definition index_mode (fname output_path : string) : M Z :=
  dicom_dir <- anonymiseDICOMDIR fname output_path ;;
  let output_filename := output_path +:+ "/DICOMDIR" in
  save_as dicom_dir output_filename ;;
  ret 0%Z.

Definition directory_mode (fuel : nat) (input_path output_path : string) : M Z :=
  anonymiseDirectory fuel input_path output_path ;;
  ret 0%Z.

Definition single_file_mode (input_path output_path : string) : M Z :=
  instance <- anonymiseImageFile input_path "REMOVED" "REMOVED" "99991231" ;;
  save_as instance output_path ;;
  ret 0%Z.

Definition unsupported_input (input_path : string) : M Z :=
  raise (IOError (input_path +:+
    " exists but it is not a DICOMDIR file, nor a directory with DICOM image files.")).

(** [a and b], where [b] is evaluated only when [a] holds. *)
Definition and_then (a : M bool) (b : M bool) : M bool :=
  x <- a ;; if x : bool then b else ret false.

(** The [if]/[elif] chain of [main] (source lines 202 to 237). *)
Definition main_dispatch (fuel : nat) (input_path output_path : string) : M Z :=
  c <- and_then (isDICOMDIR input_path) (os_path_isfile input_path) ;;
  if c : bool then index_mode input_path output_path
  else
    c <- and_then (os_path_isdir input_path)
                  (isDICOMDIR (Py.os_path_join input_path "DICOMDIR")) ;;
    if c : bool then index_mode (Py.os_path_join input_path "DICOMDIR") output_path
    else
      c <- and_then (os_path_isdir input_path)
                    (b <- isDICOMDIR (Py.os_path_join input_path "DICOMDIR") ;;
                     ret (negb b)) ;;
      if c : bool then directory_mode fuel input_path output_path
      else
        c <- os_path_isfile input_path ;;
        if c : bool then single_file_mode input_path output_path
        else unsupported_input input_path.

(** The error checks at the top of [main] (source lines 189 to 197). *)
Definition main_checks (input_path output_path : string) : M unit :=
  e <- os_path_exists input_path ;;
  (if negb e then raise (IOError (input_path +:+ " does not exists."))
   else ret tt) ;;
  e <- os_path_exists output_path ;;
  if e : bool then
    d <- os_path_isdir output_path ;;
    if negb d
    then raise (IOError (output_path +:+ " exists but it is not a directory."))
    else shutil_rmtree output_path
  else ret tt.

(** [main], with [sys.argv] as argument; the [print] calls are left out.
    [fuel] bounds the number of directories [os.walk] may visit. *)
Definition main (fuel : nat) (argv : list string) : M Z :=
  match argv with
  | _ :: input_path :: output_path :: _ =>
      main_checks input_path output_path ;;
      os_makedirs output_path ;;
      main_dispatch fuel input_path output_path
  | _ => raise (SystemExit 1)
  end.

End Anonymize.

Import Anonymize.

(** ** Vocabulary of the properties *)

(** The nine identifying tags. *)
Definition PatientID_tag : Tag := (0x0010, 0x0020)%N.
Definition PatientName_tag : Tag := (0x0010, 0x0010)%N.
Definition PatientBirthDate_tag : Tag := (0x0010, 0x0030)%N.
Definition InstitutionName_tag : Tag := (0x0008, 0x0080)%N.
Definition InstitutionAddress_tag : Tag := (0x0008, 0x0081)%N.
Definition StationName_tag : Tag := (0x0008, 0x1010)%N.

Definition mandatory_tags : list Tag :=
  [PatientID_tag; PatientName_tag; PatientBirthDate_tag;
   InstitutionName_tag; InstitutionAddress_tag; StationName_tag].

Definition optional_tags : list Tag :=
  [(0x0008, 0x0090)%N; (0x0008, 0x1048)%N; (0x0032, 0x1032)%N].

(** The value an identifying tag is given, [None] for every other tag. *)
Definition redaction (id name dob : string) (t : Tag) : option string :=
  if decide (PatientID_tag = t) then Some id
  else if decide (PatientName_tag = t) then Some name
  else if decide (PatientBirthDate_tag = t) then Some dob
  else if decide (InstitutionName_tag = t) then Some "REMOVED"
  else if decide (InstitutionAddress_tag = t) then Some "REMOVED"
  else if decide (StationName_tag = t) then Some "REMOVED"
  else if decide ((0x0008, 0x0090)%N = t) then Some "REMOVED"
  else if decide ((0x0008, 0x1048)%N = t) then Some "REMOVED"
  else if decide ((0x0032, 0x1032)%N = t) then Some "REMOVED"
  else None.

(** The value stored under a tag, if any. *)
Definition value_at (ds : Dataset) (t : Tag) : option Value := value <$> ds !! t.

(** The data set a call computes from the one it read: nine updates. *)
Definition anonymised_elements (id name dob : string) (ds : Dataset) : Dataset :=
  alter (set_value "REMOVED") (0x0032, 0x1032)%N
    (alter (set_value "REMOVED") (0x0008, 0x1048)%N
      (alter (set_value "REMOVED") (0x0008, 0x0090)%N
        (alter (set_value "REMOVED") StationName_tag
          (alter (set_value "REMOVED") InstitutionAddress_tag
            (alter (set_value "REMOVED") InstitutionName_tag
              (alter (set_value dob) PatientBirthDate_tag
                (alter (set_value name) PatientName_tag
                  (alter (set_value id) PatientID_tag ds)))))))).

(** The three patient elements of a data set hold the given identity. *)
Definition has_identity (id name dob : string) (ds : Dataset) : Prop :=
  value_at ds PatientID_tag = Some (VStr id) ∧
  value_at ds PatientName_tag = Some (VStr name) ∧
  value_at ds PatientBirthDate_tag = Some (VStr dob).

(** Whatever the outcome of [m], the data sets it saved all satisfy [P]. *)
Definition emits {A} (P : string * FileDataset → Prop) (m : M A) : Prop :=
  ∀ w r w', m w = (r, w') →
    ∃ evs, saved w' = (saved w ++ evs)%list ∧ Forall P evs.

(** [m] reads the world and leaves it as it is. *)
Definition stateless {A} (m : M A) : Prop := ∀ w r w', m w = (r, w') → w' = w.

(** [m] never raises the [IOError] that only [main] itself raises. *)
Definition no_IOError {A} (m : M A) : Prop :=
  ∀ w msg w', m w ≠ (Raise (IOError msg), w').

(** A directory record of the given type. *)
Definition has_type (ty : string) (r : DirectoryRecord) : Prop :=
  getattr (record_ds r) "DirectoryRecordType" = Ok (VStr ty).

(** [p] is the path of an image file that the patient record owns: the
    path referenced by an IMAGE record of a SERIES of a STUDY of the
    patient. *)
Definition owns (patient : DirectoryRecord) (p : string) : Prop :=
  ∃ study series image ee segs,
    study ∈ children patient ∧ has_type "STUDY" study ∧
    series ∈ children study ∧ has_type "SERIES" series ∧
    image ∈ children series ∧ has_type "IMAGE" image ∧
    getitem (record_ds image) "ReferencedFileID" = Ok ee ∧
    segments ee = Ok segs ∧ p = Py.Path segs.

(** Where the image referenced as [p] is read from and saved to. *)
Definition source_of (dicomdir_dirname p : string) : string :=
  Py.os_path_join3 dicomdir_dirname (Py.os_path_split p).1 (Py.os_path_split p).2.

Definition mirror_of (output_path p : string) : string :=
  Py.os_path_join (Py.os_path_join output_path (Py.os_path_split p).1)
                  (Py.os_path_split p).2.

(** The elements of a patient record once the loop has passed over it. *)
Definition patient_elements (id name dob : string) (ds : Dataset) : Dataset :=
  alter (set_value dob) PatientBirthDate_tag
    (alter (set_value name) PatientName_tag
      (alter (set_value id) PatientID_tag ds)).

(** The first of [tags] that the data set lacks. *)
Fixpoint first_missing (tags : list Tag) (ds : Dataset) : option Tag :=
  match tags with
  | [] => None
  | t :: tags' =>
      match ds !! t with
      | Some _ => first_missing tags' ds
      | None => Some t
      end
  end.

(** [m] removes nothing and turns nothing into something else: what was a
    directory is a directory afterwards, what was a regular file is a
    regular file afterwards. *)
Definition keeps_entries {A} (m : M A) : Prop :=
  ∀ w r w', m w = (r, w') →
    ∀ q, (path_isdir w q = true → path_isdir w' q = true) ∧
         (path_isfile w q = true → path_isfile w' q = true).

(** The exceptions that come from the operating system, from the codec or
    from a lookup in a data set, as opposed to those [main] raises itself
    and to the exhaustion of the fuel of the model. *)
Definition library_error (e : exn) : bool :=
  match e with
  | IOError _ | SystemExit _ | OutOfFuel => false
  | _ => true
  end.

(** Every exception [m] raises satisfies [P]. *)
Definition raises_only {A} (P : exn → Prop) (m : M A) : Prop :=
  ∀ w e w', m w = (Raise e, w') → P e.

(** Every identifying element of the data set holds its replacement; one
    of the three optional elements may be absent instead. *)
Definition redacted (id name dob : string) (ds : Dataset) : Prop :=
  ∀ t v, redaction id name dob t = Some v →
    value_at ds t = Some (VStr v) ∨ (ds !! t = None ∧ t ∈ optional_tags).

(** ** Sample data *)

Module Sample.

Definition el (vr v : string) : DataElement := {| VR := vr; value := VStr v |}.

(** An image with the six unconditional elements, one of the optional
    ones, a study UID and pixel data. *)
Definition image_elements : Dataset :=
  list_to_map
    [ (PatientID_tag, el "LO" "12345");
      (PatientName_tag, el "PN" "Doe^John");
      (PatientBirthDate_tag, el "DA" "19700101");
      (InstitutionName_tag, el "LO" "General Hospital");
      (InstitutionAddress_tag, el "ST" "1 Main Road");
      (StationName_tag, el "SH" "CT01");
      ((0x0008, 0x0090)%N, el "PN" "Who^Doctor");
      ((0x0020, 0x000D)%N, el "UI" "1.2.840.1");
      ((0x7FE0, 0x0010)%N, el "OW" "pixels") ].

Definition image : FileDataset :=
  {| preamble := ""; file_meta := {[ (0x0002, 0x0010)%N := el "UI" "1.2.840.10008.1.2.1" ]};
     elements := image_elements; patient_records := None |}.

Definition record (ty : string) (extra : list (Tag * DataElement))
    (cs : list DirectoryRecord) : DirectoryRecord :=
  Record_ (list_to_map (((0x0004, 0x1430)%N, el "CS" ty) :: extra)) cs.

Definition patient (id : string) (cs : list DirectoryRecord) : DirectoryRecord :=
  record "PATIENT"
    [ (PatientID_tag, el "LO" id); (PatientName_tag, el "PN" id);
      (PatientBirthDate_tag, el "DA" "19700101") ] cs.

Definition image_record (ref : Value) : DirectoryRecord :=
  record "IMAGE" [ ((0x0004, 0x1500)%N, {| VR := "CS"; value := ref |}) ] [].

Definition branch (images : list DirectoryRecord) : list DirectoryRecord :=
  [ record "STUDY" [] [ record "SERIES" [] images ] ].

Definition dicomdir (patients : list DirectoryRecord) : FileDataset :=
  {| preamble := ""; file_meta := ∅; elements := ∅; patient_records := Some patients |}.

Definition dir (entries : list (string * node)) : node := Dir (list_to_map entries).

Definition world (entries : list (string * node)) : World :=
  {| fs := dir entries; saved := [] |}.

(** One image file at the top. *)
Definition w_single : World := world [ ("scan.dcm", File (Dicom image)) ].

(** A directory [d] with an index of two patients, one image each; the
    output directory [out] exists and is empty. *)
Definition index2 : FileDataset :=
  dicomdir [ patient "alice" (branch [ image_record (VStr "IMG1") ]);
             patient "bob" (branch [ image_record (VMulti ["S"; "IMG2"]) ]) ].

Definition w_index : World :=
  world [ ("d", dir [ ("DICOMDIR", File (Dicom index2));
                      ("IMG1", File (Dicom image));
                      ("S", dir [ ("IMG2", File (Dicom image)) ]) ]);
          ("out", dir []) ].


(** An image file whose name merely ends in DICOMDIR. *)
Definition w_suffix : World := world [ ("scanDICOMDIR", File (Dicom image)) ].

(** An image file that lies inside the output directory. *)
Definition w_inside : World :=
  world [ ("out", dir [ ("in.dcm", File (Dicom image)) ]) ].

(** A path that is neither a regular file nor a directory. *)
Definition w_special : World := world [ ("fifo", Special) ].

(** An index whose second image path runs through the first: [A] is a
    file, so [A/B] cannot exist. *)
Definition index_clash : FileDataset :=
  dicomdir [ patient "alice" (branch [ image_record (VStr "A");
                                       image_record (VMulti ["A"; "B"]) ]) ].

Definition w_clash : World :=
  world [ ("d", dir [ ("DICOMDIR", File (Dicom index_clash));
                      ("A", File (Dicom image)) ]) ].

(** A tree with a leaf directory, a directory that mixes a file and a
    sub-directory, and an empty directory; the output directory exists. *)
Definition w_tree : World :=
  world [ ("d", dir [ ("series", dir [ ("a.dcm", File (Dicom image));
                                       ("b.dcm", File (Dicom image)) ]);
                      ("mixed", dir [ ("x.dcm", File (Dicom image)); ("sub", dir []) ]);
                      ("empty", dir []) ]);
          ("out", dir []) ].



(** The value and the final world of a run. *)
Definition value_of {A} (d : A) (r : Result A * World) : A :=
  match r.1 with Ok a => a | Raise _ => d end.

End Sample.

(** * Properties of the program *)

(** ** Reasoning in the monad *)

Lemma bind_Ok {A B} (m : M A) (k : A → M B) w b w' :
  bind m k w = (Ok b, w') ↔ ∃ a w1, m w = (Ok a, w1) ∧ k a w1 = (Ok b, w').
Proof.
  unfold bind. split.
  - destruct (m w) as [[a|e] w1]; [eauto | discriminate].
  - intros (a & w1 & -> & Hk). done.
Qed.

Lemma bind_Raise {A B} (m : M A) (k : A → M B) w e w' :
  bind m k w = (Raise e, w') ↔
  m w = (Raise e, w') ∨ ∃ a w1, m w = (Ok a, w1) ∧ k a w1 = (Raise e, w').
Proof.
  unfold bind. split.
  - destruct (m w) as [[a|e0] w1]; [eauto | intros [= -> ->]; eauto].
  - intros [-> | (a & w1 & -> & Hk)]; done.
Qed.

Lemma bind_of_Ok {A B} (m : M A) (k : A → M B) w a w1 :
  m w = (Ok a, w1) → bind m k w = k a w1.
Proof. unfold bind. by intros ->. Qed.

Lemma bind_of_Raise {A B} (m : M A) (k : A → M B) w e w1 :
  m w = (Raise e, w1) → bind m k w = (Raise e, w1).
Proof. unfold bind. by intros ->. Qed.

Lemma lift_Ok {A} (r : Result A) w a w' :
  lift r w = (Ok a, w') ↔ r = Ok a ∧ w' = w.
Proof. unfold lift. split; [intros [= -> ->] | intros [-> ->]]; done. Qed.

Lemma ret_Ok {A} (x : A) w a w' : ret x w = (Ok a, w') ↔ a = x ∧ w' = w.
Proof. unfold ret. split; [intros [= -> ->] | intros [-> ->]]; done. Qed.

(** ** The field anonymizer *)

Lemma is_Some_lookup_alter (f : DataElement → DataElement) (ds : Dataset) i j :
  is_Some (alter f i ds !! j) ↔ is_Some (ds !! j).
Proof.
  rewrite lookup_alter. case_decide; [subst; by rewrite fmap_is_Some | done].
Qed.

Lemma set_keyword_value_Ok keyword s ds ds' :
  set_keyword_value keyword s ds = Ok ds' →
  ∃ t, tag_for_keyword keyword = Some t ∧ is_Some (ds !! t) ∧
       ds' = alter (set_value s) t ds.
Proof.
  unfold set_keyword_value.
  destruct (tag_for_keyword keyword) as [t|]; [|done].
  destruct (ds !! t) as [e|] eqn:He; [|done].
  intros [= <-]. exists t. split_and!; [done | by rewrite He |].
  apply map_eq. intros j. rewrite lookup_alter, lookup_insert.
  case_decide; [by rewrite He | done].
Qed.

Lemma set_keyword_value_present keyword s ds t :
  tag_for_keyword keyword = Some t → is_Some (ds !! t) →
  set_keyword_value keyword s ds = Ok (alter (set_value s) t ds).
Proof.
  intros Ht [e He]. unfold set_keyword_value. rewrite Ht, He. f_equal.
  apply map_eq. intros j. rewrite lookup_alter, lookup_insert.
  case_decide; [by rewrite He | done].
Qed.

Lemma set_value_if_present_alter t s ds :
  set_value_if_present t s ds = alter (set_value s) t ds.
Proof.
  unfold set_value_if_present. apply map_eq. intros j. rewrite lookup_alter.
  destruct (ds !! t) as [e|] eqn:He.
  - rewrite lookup_insert. by case_decide.
  - case_decide; [subst; simpl; congruence | done].
Qed.

Lemma assign_Ok keyword s instance w r w' :
  assign keyword s instance w = (Ok r, w') →
  w' = w ∧
  ∃ t, tag_for_keyword keyword = Some t ∧ is_Some (elements instance !! t) ∧
       r = with_elements instance (alter (set_value s) t (elements instance)).
Proof.
  unfold assign. intros H.
  apply bind_Ok in H as (ds & w1 & Hl & H). apply lift_Ok in Hl as [Hl ->].
  apply ret_Ok in H as [-> ->].
  apply set_keyword_value_Ok in Hl as (t & ? & ? & ->). eauto 10.
Qed.

Lemma assign_present keyword s instance w t :
  tag_for_keyword keyword = Some t → is_Some (elements instance !! t) →
  assign keyword s instance w =
  (Ok (with_elements instance (alter (set_value s) t (elements instance))), w).
Proof.
  intros Ht He. unfold assign, bind, lift, ret.
  by rewrite (set_keyword_value_present _ _ _ _ Ht He).
Qed.

Lemma dcmread_world fname w r w' : dcmread fname w = (r, w') → w' = w.
Proof.
  unfold dcmread. intros H.
  repeat match type of H with
         | context [match ?x with _ => _ end] => destruct x
         end; by inversion H.
Qed.

Lemma lookup_anonymised_elements id name dob ds t :
  anonymised_elements id name dob ds !! t =
  match redaction id name dob t with
  | Some v => set_value v <$> ds !! t
  | None => ds !! t
  end.
Proof.
  unfold anonymised_elements, redaction, PatientID_tag, PatientName_tag,
    PatientBirthDate_tag, InstitutionName_tag, InstitutionAddress_tag, StationName_tag.
  repeat (case_decide;
          [ subst t; repeat (rewrite lookup_alter_ne by done);
            rewrite lookup_alter_eq; repeat (rewrite lookup_alter_ne by done);
            reflexivity
          | ]).
  by repeat (rewrite lookup_alter_ne by done).
Qed.


(** What a successful call returns. *)
Lemma anonymiseImageFile_Ok fname id name dob w r w' :
  anonymiseImageFile fname id name dob w = (Ok r, w') →
  ∃ instance,
    dcmread fname w = (Ok instance, w) ∧ w' = w ∧
    (∀ t, t ∈ mandatory_tags → is_Some (elements instance !! t)) ∧
    r = with_elements instance (anonymised_elements id name dob (elements instance)).
Proof.
  unfold anonymiseImageFile. intros H.
  apply bind_Ok in H as (instance & w1 & Hread & H).
  pose proof (dcmread_world _ _ _ _ Hread) as ->.
  apply bind_Ok in H as (? & ? & Ha & H).
  apply assign_Ok in Ha as (-> & ? & [= <-] & H1 & ->).
  apply bind_Ok in H as (? & ? & Ha & H).
  apply assign_Ok in Ha as (-> & ? & [= <-] & H2 & ->).
  apply bind_Ok in H as (? & ? & Ha & H).
  apply assign_Ok in Ha as (-> & ? & [= <-] & H3 & ->).
  apply bind_Ok in H as (? & ? & Ha & H).
  apply assign_Ok in Ha as (-> & ? & [= <-] & H4 & ->).
  apply bind_Ok in H as (? & ? & Ha & H).
  apply assign_Ok in Ha as (-> & ? & [= <-] & H5 & ->).
  apply bind_Ok in H as (? & ? & Ha & H).
  apply assign_Ok in Ha as (-> & ? & [= <-] & H6 & ->).
  apply ret_Ok in H as [-> ->].
  cbn [elements with_elements] in *.
  rewrite !is_Some_lookup_alter in *.
  exists instance. split_and!; try done.
  - intros t Ht. unfold mandatory_tags in Ht.
    repeat (apply elem_of_cons in Ht as [-> | Ht]; [assumption |]).
    by apply elem_of_nil in Ht.
  - unfold assign_if_present, anonymised_elements, with_elements. cbn.
    by rewrite !set_value_if_present_alter.
Qed.

Lemma bind_assign_present {B} keyword s instance (k : FileDataset → M B) w t :
  tag_for_keyword keyword = Some t → is_Some (elements instance !! t) →
  bind (assign keyword s instance) k w =
  k (with_elements instance (alter (set_value s) t (elements instance))) w.
Proof. intros Ht He. by rewrite (bind_of_Ok _ _ _ _ _ (assign_present _ _ _ _ _ Ht He)). Qed.

(** A call succeeds as soon as the file holds a data set with the six
    elements that are assigned unconditionally. *)
Lemma anonymiseImageFile_total fname id name dob w instance :
  dcmread fname w = (Ok instance, w) →
  (∀ t, t ∈ mandatory_tags → is_Some (elements instance !! t)) →
  anonymiseImageFile fname id name dob w =
  (Ok (with_elements instance (anonymised_elements id name dob (elements instance))), w).
Proof.
  intros Hread Hm. unfold anonymiseImageFile.
  rewrite (bind_of_Ok _ _ _ _ _ Hread).
  unfold mandatory_tags in Hm.
  rewrite (bind_assign_present _ _ _ _ _ PatientID_tag)
    by first [reflexivity | apply Hm; set_solver].
  rewrite (bind_assign_present _ _ _ _ _ PatientName_tag)
    by first [reflexivity
             | cbn [elements with_elements]; rewrite ?is_Some_lookup_alter; apply Hm; set_solver].
  rewrite (bind_assign_present _ _ _ _ _ PatientBirthDate_tag)
    by first [reflexivity
             | cbn [elements with_elements]; rewrite ?is_Some_lookup_alter; apply Hm; set_solver].
  rewrite (bind_assign_present _ _ _ _ _ InstitutionName_tag)
    by first [reflexivity
             | cbn [elements with_elements]; rewrite ?is_Some_lookup_alter; apply Hm; set_solver].
  rewrite (bind_assign_present _ _ _ _ _ InstitutionAddress_tag)
    by first [reflexivity
             | cbn [elements with_elements]; rewrite ?is_Some_lookup_alter; apply Hm; set_solver].
  rewrite (bind_assign_present _ _ _ _ _ StationName_tag)
    by first [reflexivity
             | cbn [elements with_elements]; rewrite ?is_Some_lookup_alter; apply Hm; set_solver].
  unfold ret, assign_if_present, anonymised_elements, with_elements. cbn.
  by rewrite !set_value_if_present_alter.
Qed.

Lemma set_value_idemp s e : set_value s (set_value s e) = set_value s e.
Proof. done. Qed.


Lemma redaction_mandatory id name dob t :
  t ∈ mandatory_tags → is_Some (redaction id name dob t).
Proof.
  unfold mandatory_tags. intros Ht.
  repeat (apply elem_of_cons in Ht as [-> | Ht]; [vm_compute; eauto |]).
  by apply elem_of_nil in Ht.
Qed.

Lemma redaction_None id name dob t :
  t ∉ (mandatory_tags ++ optional_tags)%list → redaction id name dob t = None.
Proof.
  unfold mandatory_tags, optional_tags, redaction. intros Ht.
  repeat (case_decide; [exfalso; apply Ht; subst t; set_solver |]). done.
Qed.

(** ** What a run saves *)

Lemma emits_weaken {A} (P Q : string * FileDataset → Prop) (m : M A) :
  (∀ ev, P ev → Q ev) → emits P m → emits Q m.
Proof.
  intros HPQ Hm w r w' H. destruct (Hm _ _ _ H) as (evs & ? & ?).
  exists evs. split; [done|]. by eapply Forall_impl.
Qed.

Lemma emits_silent {A} P (m : M A) :
  (∀ w r w', m w = (r, w') → saved w' = saved w) → emits P m.
Proof.
  intros Hm w r w' H. exists []. rewrite app_nil_r. split; [by eapply Hm | done].
Qed.

Lemma emits_ret {A} P (a : A) : emits P (ret a).
Proof. apply emits_silent. by intros ??? [= _ ->]. Qed.

Lemma emits_raise {A} P e : emits P (raise (A:=A) e).
Proof. apply emits_silent. by intros ??? [= _ ->]. Qed.

Lemma emits_lift {A} P (r : Result A) : emits P (lift r).
Proof. apply emits_silent. by intros ??? [= _ ->]. Qed.

Lemma emits_bind {A B} P (m : M A) (k : A → M B) :
  emits P m → (∀ w a w1, m w = (Ok a, w1) → emits P (k a)) → emits P (bind m k).
Proof.
  intros Hm Hk w r w' H. unfold bind in H.
  destruct (m w) as [[a|e] w1] eqn:E.
  - destruct (Hm _ _ _ E) as (evs1 & E1 & ?).
    destruct (Hk _ _ _ E _ _ _ H) as (evs2 & E2 & ?).
    exists (evs1 ++ evs2)%list. split; [|by apply Forall_app].
    by rewrite E2, E1, app_assoc.
  - injection H as <- <-. eauto.
Qed.

Lemma emits_for_ {A} P (l : list A) (body : A → M unit) :
  (∀ x, x ∈ l → emits P (body x)) → emits P (for_ l body).
Proof.
  induction l as [|x l IH]; intros Hb; cbn.
  - apply emits_ret.
  - apply emits_bind; [apply Hb; left | intros ? ? ? _; apply IH].
    intros y Hy. apply Hb. by right.
Qed.

Lemma emits_mapM {A B} P (f : A → M B) (l : list A) :
  (∀ x, x ∈ l → emits P (f x)) → emits P (mapM f l).
Proof.
  induction l as [|x l IH]; intros Hb; cbn.
  - apply emits_ret.
  - apply emits_bind; [apply Hb; left | intros ? ? ? _].
    apply emits_bind; [|intros; apply emits_ret].
    apply IH. intros y Hy. apply Hb. by right.
Qed.

Lemma emits_filterM {A} P (test : A → M bool) (l : list A) :
  (∀ x, x ∈ l → emits P (test x)) → emits P (filterM test l).
Proof.
  induction l as [|x l IH]; intros Hb; cbn.
  - apply emits_ret.
  - apply emits_bind; [apply Hb; left | intros ? ? ? _].
    apply emits_bind; [|intros; apply emits_ret].
    apply IH. intros y Hy. apply Hb. by right.
Qed.

Lemma emits_os_path_isfile P p : emits P (os_path_isfile p).
Proof. apply emits_silent. by intros ??? [= _ ->]. Qed.

Lemma emits_os_path_isdir P p : emits P (os_path_isdir p).
Proof. apply emits_silent. by intros ??? [= _ ->]. Qed.

Lemma emits_os_path_exists P p : emits P (os_path_exists p).
Proof. apply emits_silent. by intros ??? [= _ ->]. Qed.

Lemma os_makedirs_saved p w r w' : os_makedirs p w = (r, w') → saved w' = saved w.
Proof.
  unfold os_makedirs. intros H.
  repeat match type of H with
         | context [match ?x with _ => _ end] => destruct x
         end; by inversion H.
Qed.

Lemma shutil_rmtree_saved p w r w' : shutil_rmtree p w = (r, w') → saved w' = saved w.
Proof.
  unfold shutil_rmtree. intros H.
  repeat match type of H with
         | context [match ?x with _ => _ end] => destruct x
         end; by inversion H.
Qed.

Lemma emits_os_makedirs P p : emits P (os_makedirs p).
Proof. apply emits_silent, os_makedirs_saved. Qed.

Lemma emits_shutil_rmtree P p : emits P (shutil_rmtree p).
Proof. apply emits_silent, shutil_rmtree_saved. Qed.

Lemma emits_dcmread P p : emits P (dcmread p).
Proof. apply emits_silent. intros ??? H. by rewrite (dcmread_world _ _ _ _ H). Qed.

(** A [save_as] appends exactly one entry to the history when it
    succeeds and none when it fails. *)
Lemma save_as_saved f p w r w' :
  save_as f p w = (r, w') →
  (r = Ok tt ∧ saved w' = (saved w ++ [(p, f)])%list) ∨
  ((∃ e, r = Raise e) ∧ w' = w).
Proof.
  unfold save_as. intros H.
  repeat match type of H with
         | context [match ?x with _ => _ end] => destruct x
         end; inversion H; subst; eauto.
Qed.

Lemma emits_save_as (P : string * FileDataset → Prop) f p :
  P (p, f) → emits P (save_as f p).
Proof.
  intros HP w r w' H. apply save_as_saved in H as [[_ ->] | [_ ->]].
  - exists [(p, f)]. split; [done | by constructor].
  - exists []. by rewrite app_nil_r.
Qed.

Lemma emits_anonymiseImageFile P fname id name dob :
  emits P (anonymiseImageFile fname id name dob).
Proof.
  unfold anonymiseImageFile, assign.
  repeat first [ apply emits_dcmread | apply emits_ret | apply emits_lift
               | apply emits_bind; [|intros ? ? ? _] ].
Qed.

(** ** The index anonymizer *)


Lemma has_identity_anonymised_elements id name dob ds :
  (∀ t, t ∈ mandatory_tags → is_Some (ds !! t)) →
  has_identity id name dob (anonymised_elements id name dob ds).
Proof.
  intros Hs. unfold has_identity, value_at.
  rewrite !lookup_anonymised_elements. unfold mandatory_tags in Hs.
  destruct (Hs PatientID_tag) as [e1 E1]; [set_solver|].
  destruct (Hs PatientName_tag) as [e2 E2]; [set_solver|].
  destruct (Hs PatientBirthDate_tag) as [e3 E3]; [set_solver|].
  rewrite E1, E2, E3. done.
Qed.

Lemma Forall2_elem_of_right {A B} (R : A → B → Prop) l k y :
  Forall2 R l k → y ∈ k → ∃ x, x ∈ l ∧ R x y.
Proof.
  induction 1 as [|x y' l k HR _ IH]; intros Hy.
  - by apply elem_of_nil in Hy.
  - apply elem_of_cons in Hy as [-> | Hy].
    + exists x. split; [left | done].
    + destruct (IH Hy) as (x' & ? & ?). exists x'. split; [by right | done].
Qed.

Lemma mapM_lift_Ok {A B} (f : A → Result B) l w ys w' :
  mapM (λ x, lift (f x)) l w = (Ok ys, w') →
  w' = w ∧ Forall2 (λ x y, f x = Ok y) l ys.
Proof.
  revert w ys w'. induction l as [|x l IH]; intros w ys w' H; cbn [mapM] in H.
  - apply ret_Ok in H as [-> ->]. by split.
  - apply bind_Ok in H as (y & w1 & Hy & H). apply lift_Ok in Hy as [Hy ->].
    apply bind_Ok in H as (ys' & w2 & Hys & H). apply ret_Ok in H as [-> ->].
    apply IH in Hys as [-> ?]. split; [done | by constructor].
Qed.

Lemma records_of_type_Ok ty l w xs w' :
  records_of_type ty l w = (Ok xs, w') →
  w' = w ∧ ∀ x, x ∈ xs → x ∈ l ∧ has_type ty x.
Proof.
  unfold records_of_type. revert w xs w'.
  induction l as [|x l IH]; intros w xs w' H; cbn [filterM] in H.
  - apply ret_Ok in H as [-> ->]. split; [done|]. intros x Hx. by apply elem_of_nil in Hx.
  - apply bind_Ok in H as (b & w1 & Hb & H).
    apply bind_Ok in Hb as (v & w0 & Hget & Hb). apply lift_Ok in Hget as [Hget ->].
    apply ret_Ok in Hb as [-> ->].
    apply bind_Ok in H as (xs' & w2 & Hxs' & H). apply ret_Ok in H as [-> ->].
    apply IH in Hxs' as [-> Hxs]. split; [done|].
    intros y Hy. case_bool_decide as Hv.
    + apply elem_of_cons in Hy as [-> | Hy].
      * split; [left | by unfold has_type; rewrite Hget, Hv].
      * destruct (Hxs _ Hy). split; [by right | done].
    + destruct (Hxs _ Hy). split; [by right | done].
Qed.

Lemma records_of_type_saved ty l w r w' :
  records_of_type ty l w = (r, w') → saved w' = saved w.
Proof.
  intros H.
  assert (emits (λ _, False) (records_of_type ty l)) as He.
  { unfold records_of_type. apply emits_filterM. intros x _.
    apply emits_bind; [apply emits_lift | intros; apply emits_ret]. }
  destruct (He _ _ _ H) as ([|ev evs] & -> & Hf).
  - by rewrite app_nil_r.
  - by inversion Hf.
Qed.

(** What the processing of one referenced path saves: at most one data
    set, with the identity it was given, at the mirror of the path. *)
Lemma emits_for_path d o id name dob p :
  emits (λ ev, has_identity id name dob (elements ev.2) ∧ ev.1 = mirror_of o p)
        (for_path d o id name dob p).
Proof.
  unfold for_path, mirror_of. destruct (Py.os_path_split p) as [dirname fname].
  apply emits_bind; [apply emits_os_makedirs | intros ? ? ? _].
  apply emits_bind; [apply emits_os_path_isfile | intros ? [] ? _]; [|apply emits_ret].
  apply emits_bind; [apply emits_anonymiseImageFile | intros wa instance wb Hrun].
  apply emits_save_as. split; [|done].
  apply anonymiseImageFile_Ok in Hrun as (instance0 & _ & _ & Hm & ->).
  by apply has_identity_anonymised_elements.
Qed.

Lemma emits_for_series d o id name dob series :
  emits (λ ev, has_identity id name dob (elements ev.2) ∧
               ∃ image ee segs,
                 image ∈ children series ∧ has_type "IMAGE" image ∧
                 getitem (record_ds image) "ReferencedFileID" = Ok ee ∧
                 segments ee = Ok segs ∧ ev.1 = mirror_of o (Py.Path segs))
        (for_series d o id name dob series).
Proof.
  unfold for_series.
  apply emits_bind.
  { apply emits_silent. apply records_of_type_saved. }
  intros w images w1 Himages. apply records_of_type_Ok in Himages as [-> Himages].
  apply emits_bind.
  { apply emits_mapM. intros; apply emits_lift. }
  intros w2 elems w3 Helems. apply mapM_lift_Ok in Helems as [-> Helems].
  apply emits_bind.
  { apply emits_mapM. intros; apply emits_lift. }
  intros w4 paths w5 Hpaths. apply mapM_lift_Ok in Hpaths as [-> Hpaths].
  apply emits_for_. intros p Hp.
  apply list_elem_of_fmap in Hp as (segs & -> & Hsegs).
  destruct (Forall2_elem_of_right _ _ _ _ Hpaths Hsegs) as (ee & Hee & Hseg).
  destruct (Forall2_elem_of_right _ _ _ _ Helems Hee) as (image & Himage & Hget).
  destruct (Himages _ Himage) as [? ?].
  eapply emits_weaken; [|apply emits_for_path].
  intros ev [? ?]. split; [done|]. eauto 10.
Qed.

Lemma emits_for_study d o id name dob study :
  emits (λ ev, has_identity id name dob (elements ev.2) ∧
               ∃ series image ee segs,
                 series ∈ children study ∧ has_type "SERIES" series ∧
                 image ∈ children series ∧ has_type "IMAGE" image ∧
                 getitem (record_ds image) "ReferencedFileID" = Ok ee ∧
                 segments ee = Ok segs ∧ ev.1 = mirror_of o (Py.Path segs))
        (for_study d o id name dob study).
Proof.
  unfold for_study.
  apply emits_bind.
  { apply emits_silent. apply records_of_type_saved. }
  intros w all_series w1 Hall. apply records_of_type_Ok in Hall as [-> Hall].
  apply emits_for_. intros series Hseries. destruct (Hall _ Hseries) as [? ?].
  eapply emits_weaken; [|apply emits_for_series].
  intros ev (? & image & ee & segs & ? & ? & ? & ? & ?). split; [done|].
  exists series, image, ee, segs. done.
Qed.


Lemma new_identifier_few (n i : nat) : (n ≤ 1)%nat → new_identifier n i = "REMOVED".
Proof. intros. unfold new_identifier. rewrite bool_decide_eq_false_2; [done | lia]. Qed.


(** What the loop body does to one patient. *)
Lemma for_patient_Ok d o n i patient w patient' w' :
  for_patient d o n i patient w = (Ok patient', w') →
  (∀ t, t ∈ [PatientID_tag; PatientName_tag; PatientBirthDate_tag] →
        is_Some (record_ds patient !! t)) ∧
  patient' = Record_ (patient_elements (new_identifier n i) (new_identifier n i)
                        "99991231" (record_ds patient))
                     (children patient).
Proof.
  unfold for_patient. intros H.
  do 3 (apply bind_Ok in H as (? & ? & Hl & H); apply lift_Ok in Hl as [_ ->]).
  apply bind_Ok in H as (? & ? & Hl & H); apply lift_Ok in Hl as [Hl ->].
  apply set_keyword_value_Ok in Hl as (? & [= <-] & Hs1 & ->).
  apply bind_Ok in H as (? & ? & Hl & H); apply lift_Ok in Hl as [Hl ->].
  apply set_keyword_value_Ok in Hl as (? & [= <-] & Hs2 & ->).
  apply bind_Ok in H as (? & ? & Hl & H); apply lift_Ok in Hl as [Hl ->].
  apply set_keyword_value_Ok in Hl as (? & [= <-] & Hs3 & ->).
  apply bind_Ok in H as (? & ? & _ & H).
  apply bind_Ok in H as (? & ? & _ & H). apply ret_Ok in H as [-> _].
  rewrite !is_Some_lookup_alter in *.
  split; [|done].
  intros t Ht. repeat (apply elem_of_cons in Ht as [-> | Ht]; [assumption |]).
  by apply elem_of_nil in Ht.
Qed.

Lemma emits_for_patient d o n i patient :
  emits (λ ev, has_identity (new_identifier n i) (new_identifier n i) "99991231"
                 (elements ev.2) ∧
               ∃ p, owns patient p ∧ ev.1 = mirror_of o p)
        (for_patient d o n i patient).
Proof.
  unfold for_patient.
  repeat (apply emits_bind; [apply emits_lift | intros ? ? ? _]).
  apply emits_bind.
  { apply emits_silent. apply records_of_type_saved. }
  intros wa studies wb Hst. apply records_of_type_Ok in Hst as [-> Hst].
  apply emits_bind; [|intros; apply emits_ret].
  apply emits_for_. intros study Hstudy. destruct (Hst _ Hstudy) as [? ?].
  eapply emits_weaken; [|apply emits_for_study].
  intros ev (? & series & image & ee & segs & ? & ? & ? & ? & ? & ? & ?).
  split; [done|]. exists (Py.Path segs). split; [|done].
  exists study, series, image, ee, segs. done.
Qed.

Lemma read_dicomdir_Ok p w index w' :
  read_dicomdir p w = (Ok index, w') →
  w' = w ∧ dcmread p w = (Ok index, w) ∧ is_Some (patient_records index).
Proof.
  unfold read_dicomdir. intros H. apply bind_Ok in H as (ds & w1 & Hread & H).
  pose proof (dcmread_world _ _ _ _ Hread) as ->.
  destruct (patient_records ds) eqn:E; [|discriminate H].
  apply ret_Ok in H as [-> ->]. rewrite E. eauto.
Qed.

(** The loop over the patients: the history grows by one group of data
    sets per patient, and patient [k] of the list is processed as number
    [i + k]. *)
Lemma mapM_enumerate_for_patient d o n records :
  ∀ i w records' w',
    mapM_enumerate (for_patient d o n) i records w = (Ok records', w') →
    ∃ evss,
      saved w' = (saved w ++ concat evss)%list ∧
      List.length records' = List.length records ∧
      List.length evss = List.length records ∧
      ∀ k patient, records !! k = Some patient →
        ∃ evs,
          evss !! k = Some evs ∧
          records' !! k =
            Some (Record_ (patient_elements (new_identifier n (i + k))
                             (new_identifier n (i + k)) "99991231" (record_ds patient))
                          (children patient)) ∧
          (∀ t, t ∈ [PatientID_tag; PatientName_tag; PatientBirthDate_tag] →
                is_Some (record_ds patient !! t)) ∧
          Forall (λ ev, has_identity (new_identifier n (i + k)) (new_identifier n (i + k))
                          "99991231" (elements ev.2) ∧
                        ∃ p, owns patient p ∧ ev.1 = mirror_of o p) evs.
Proof.
  induction records as [|patient records IH]; intros i w records' w' H;
    cbn [mapM_enumerate] in H.
  - apply ret_Ok in H as [-> ->]. exists []. cbn. rewrite app_nil_r.
    split_and!; try done; intros k ? Hk; by rewrite lookup_nil in Hk.
  - apply bind_Ok in H as (patient' & w1 & Hp & H).
    apply bind_Ok in H as (rest & w2 & Hrest & H). apply ret_Ok in H as [-> ->].
    destruct (emits_for_patient d o n i patient _ _ _ Hp) as (evs & E1 & Hevs).
    apply for_patient_Ok in Hp as [Hs ->].
    destruct (IH _ _ _ _ Hrest) as (evss & E2 & Hl1 & Hl2 & Hk).
    exists (evs :: evss). cbn [concat List.length]. split_and!.
    + by rewrite E2, E1, app_assoc.
    + by rewrite Hl1.
    + by rewrite Hl2.
    + intros [|k] patient0 Hlook; cbn in Hlook.
      * injection Hlook as <-. exists evs. rewrite Nat.add_0_r. done.
      * destruct (Hk _ _ Hlook) as (evs' & ? & ? & ? & ?). exists evs'.
        replace (i + S k) with (S i + k) by lia. done.
Qed.

(** ** The file-system tree *)

Lemma tree_lookup_nil n : tree_lookup [] n = Some n.
Proof. done. Qed.

Lemma tree_lookup_cons c cp n :
  tree_lookup (c :: cp) n =
  match n with Dir es => es !! c ≫= tree_lookup cp | _ => None end.
Proof. done. Qed.

(** [tree_mkdirs] only adds directories: what is not a directory is found
    afterwards exactly where it was before. *)
Lemma tree_mkdirs_other cp : ∀ t t' q n,
  tree_mkdirs cp t = Some t' → is_dir n = false →
  tree_lookup q t' = Some n ↔ tree_lookup q t = Some n.
Proof.
  induction cp as [|c cp IH]; intros t t' q n Hmk Hn.
  - destruct t; cbn in Hmk; by simplify_eq.
  - destruct t as [| |es]; cbn in Hmk; try discriminate.
    destruct (tree_mkdirs cp (default (Dir ∅) (es !! c))) as [child|] eqn:Hc;
      cbn in Hmk; [|discriminate].
    injection Hmk as <-.
    destruct q as [|c0 q].
    { cbn. split; intros [= <-]; discriminate. }
    rewrite !tree_lookup_cons.
    destruct (decide (c0 = c)) as [->|Hne].
    + rewrite lookup_insert_eq. cbn.
      rewrite (IH _ _ q n Hc Hn).
      destruct (es !! c) as [n0|]; [done|]. cbn.
      destruct q; cbn; [|rewrite lookup_empty; cbn]; split; try done.
      intros [= <-]. discriminate.
    + by rewrite lookup_insert_ne.
Qed.

(** After [tree_mkdirs] the path names a directory. *)
Lemma tree_mkdirs_dir cp : ∀ t t',
  tree_mkdirs cp t = Some t' → ∃ es, tree_lookup cp t' = Some (Dir es).
Proof.
  induction cp as [|c cp IH]; intros t t' Hmk.
  - destruct t; cbn in Hmk; simplify_eq. eauto.
  - destruct t as [| |es]; cbn in Hmk; try discriminate.
    destruct (tree_mkdirs cp (default (Dir ∅) (es !! c))) as [child|] eqn:Hc;
      cbn in Hmk; [|discriminate].
    injection Hmk as <-. rewrite tree_lookup_cons, lookup_insert_eq. cbn. eauto.
Qed.




Lemma tree_mkdirs_files cp t t' q :
  tree_mkdirs cp t = Some t' →
  (match tree_lookup q t' with Some (File _) => true | _ => false end) =
  (match tree_lookup q t with Some (File _) => true | _ => false end).
Proof.
  intros Hmk.
  destruct (tree_lookup q t') as [[c| |]|] eqn:E'.
  - apply (tree_mkdirs_other _ _ _ _ _ Hmk) in E'; [|done]. by rewrite E'.
  - apply (tree_mkdirs_other _ _ _ _ _ Hmk) in E'; [|done]. by rewrite E'.
  - destruct (tree_lookup q t) as [[c| |]|] eqn:E; try done.
    apply (tree_mkdirs_other _ _ _ _ _ Hmk) in E; [|done]. congruence.
  - destruct (tree_lookup q t) as [[c| |]|] eqn:E; try done.
    apply (tree_mkdirs_other _ _ _ _ _ Hmk) in E; [|done]. congruence.
Qed.

(** [os.makedirs] creates no regular file and removes none. *)
Lemma os_makedirs_isfile p w r w' q :
  os_makedirs p w = (r, w') → path_isfile w' q = path_isfile w q.
Proof.
  unfold os_makedirs. intros H.
  destruct (resolve p) as [[cp d]|]; [|by injection H as _ <-].
  destruct (tree_mkdirs cp (fs w)) as [t|] eqn:Hmk; [|by injection H as _ <-].
  injection H as _ <-. unfold path_isfile, lookup_path. cbn [fs].
  destruct (resolve q) as [[cq dq]|]; [|done].
  pose proof (tree_mkdirs_files _ _ _ cq Hmk) as Hf.
  destruct (tree_lookup cq t) as [[?| |]|], (tree_lookup cq (fs w)) as [[?| |]|];
    try done; by destruct dq.
Qed.

(** After a successful [os.makedirs] the path is a directory. *)
Lemma os_makedirs_isdir p w w' :
  os_makedirs p w = (Ok tt, w') → path_isdir w' p = true.
Proof.
  unfold os_makedirs. intros H.
  destruct (resolve p) as [[cp d]|] eqn:Hp; [|discriminate].
  destruct (tree_mkdirs cp (fs w)) as [t|] eqn:Hmk; [|discriminate].
  injection H as <-. unfold path_isdir, lookup_path. rewrite Hp. cbn [fs].
  destruct (tree_mkdirs_dir _ _ _ Hmk) as [es ->]. done.
Qed.

(** A directory cannot be opened for writing. *)
Lemma save_as_isdir f p w :
  path_isdir w p = true → save_as f p w = (Raise (IsADirectoryError p), w).
Proof.
  unfold path_isdir, lookup_path, save_as.
  destruct (resolve p) as [[cp d]|]; [|done].
  by destruct (tree_lookup cp (fs w)) as [[?| |]|].
Qed.









(** ** Computations that leave the world alone *)


Lemma stateless_ret {A} (a : A) : stateless (ret a).
Proof. by intros ??? [= _ ->]. Qed.

Lemma stateless_raise {A} e : stateless (raise (A:=A) e).
Proof. by intros ??? [= _ ->]. Qed.

Lemma stateless_lift {A} (r : Result A) : stateless (lift r).
Proof. by intros ??? [= _ ->]. Qed.

Lemma stateless_bind {A B} (m : M A) (k : A → M B) :
  stateless m → (∀ a, stateless (k a)) → stateless (bind m k).
Proof.
  intros Hm Hk w r w' H. unfold bind in H.
  destruct (m w) as [[a|e] w1] eqn:E.
  - apply Hm in E as ->. by apply Hk in H.
  - apply Hm in E as ->. by injection H as _ <-.
Qed.

Lemma stateless_dcmread p : stateless (dcmread p).
Proof. intros ???. apply dcmread_world. Qed.

Lemma stateless_anonymiseImageFile fname id name dob :
  stateless (anonymiseImageFile fname id name dob).
Proof.
  unfold anonymiseImageFile, assign.
  repeat first [ apply stateless_dcmread | apply stateless_ret | apply stateless_lift
               | apply stateless_bind; [|intros ?] ].
Qed.

(** ** The single-file branch *)

Lemma single_file_mode_after_makedirs input_path output_path w0 w :
  os_makedirs output_path w0 = (Ok tt, w) →
  ∃ e, single_file_mode input_path output_path w = (Raise e, w).
Proof.
  intros Hmk. pose proof (os_makedirs_isdir _ _ _ Hmk) as Hd.
  unfold single_file_mode.
  destruct (anonymiseImageFile input_path "REMOVED" "REMOVED" "99991231" w)
    as [[instance|e] w1] eqn:E;
    pose proof (stateless_anonymiseImageFile _ _ _ _ _ _ _ E) as ->.
  - rewrite (bind_of_Ok _ _ _ _ _ E).
    rewrite (bind_of_Raise _ _ _ _ _ (save_as_isdir instance _ _ Hd)). eauto.
  - rewrite (bind_of_Raise _ _ _ _ _ E). eauto.
Qed.

(** ** The branches of [main] *)

Lemma isDICOMDIR_run fname w :
  isDICOMDIR fname w =
  (Ok (bool_decide (Py.slice_last 8 fname = "DICOMDIR") && path_isfile w fname), w).
Proof.
  unfold isDICOMDIR. change (String.length "DICOMDIR") with 8.
  by case_bool_decide.
Qed.

Lemma path_isfile_not_isdir w p : path_isfile w p = true → path_isdir w p = false.
Proof.
  unfold path_isfile, path_isdir.
  by destruct (lookup_path w p) as [[[?| |] ?]|].
Qed.

Lemma and_then_run (a b : M bool) va vb w :
  a w = (Ok va, w) → b w = (Ok vb, w) → and_then a b w = (Ok (va && vb), w).
Proof.
  intros Ha Hb. unfold and_then. rewrite (bind_of_Ok _ _ _ _ _ Ha).
  by destruct va.
Qed.

(** The chain of tests, with the tests evaluated. *)
Lemma main_dispatch_run fuel input_path output_path w :
  let index_path := Py.os_path_join input_path "DICOMDIR" in
  let index_there :=
    bool_decide (Py.slice_last 8 index_path = "DICOMDIR") && path_isfile w index_path in
  main_dispatch fuel input_path output_path w =
  if bool_decide (Py.slice_last 8 input_path = "DICOMDIR") && path_isfile w input_path
     && path_isfile w input_path
  then index_mode input_path output_path w
  else if path_isdir w input_path && index_there
  then index_mode index_path output_path w
  else if path_isdir w input_path && negb index_there
  then directory_mode fuel input_path output_path w
  else if path_isfile w input_path
  then single_file_mode input_path output_path w
  else unsupported_input input_path w.
Proof.
  cbn zeta. unfold main_dispatch.
  rewrite (bind_of_Ok _ _ _ _ _
             (and_then_run (isDICOMDIR input_path) (os_path_isfile input_path) _ _ _
                (isDICOMDIR_run input_path w) eq_refl)).
  destruct (_ && _ && _); [done|].
  rewrite (bind_of_Ok _ _ _ _ _
             (and_then_run (os_path_isdir input_path)
                (isDICOMDIR (Py.os_path_join input_path "DICOMDIR")) _ _ _ eq_refl
                (isDICOMDIR_run _ w))).
  destruct (path_isdir w input_path && _) eqn:E1; [done|].
  assert ((b <- isDICOMDIR (Py.os_path_join input_path "DICOMDIR");; ret (negb b)) w
          = (Ok (negb (bool_decide (Py.slice_last 8 (Py.os_path_join input_path "DICOMDIR")
                                    = "DICOMDIR")
                       && path_isfile w (Py.os_path_join input_path "DICOMDIR"))), w))
    as Hneg by (by rewrite (bind_of_Ok _ _ _ _ _ (isDICOMDIR_run _ w))).
  rewrite (bind_of_Ok _ _ _ _ _
             (and_then_run (os_path_isdir input_path) _ _ _ _ eq_refl Hneg)).
  destruct (path_isdir w input_path && negb _); [done|].
  unfold bind at 1, os_path_isfile at 1.
  by destruct (path_isfile w input_path).
Qed.

(** ** Which exceptions the branches raise *)


Ltac no_IOError_by_cases :=
  let H := fresh in
  intros ? ? ? H;
  repeat match type of H with
         | context [match ?x with _ => _ end] => destruct x
         end; discriminate H.

Lemma no_IOError_ret {A} (a : A) : no_IOError (ret a).
Proof. by intros ???. Qed.

Lemma no_IOError_raise {A} e :
  (∀ msg, e ≠ IOError msg) → no_IOError (raise (A:=A) e).
Proof. intros He ??? [= -> _]. by eapply He. Qed.

Lemma no_IOError_lift {A} (r : Result A) :
  (∀ msg, r ≠ Raise (IOError msg)) → no_IOError (lift r).
Proof. intros Hr ??? [= -> _]. by eapply Hr. Qed.

Lemma no_IOError_bind {A B} (m : M A) (k : A → M B) :
  no_IOError m → (∀ a, no_IOError (k a)) → no_IOError (bind m k).
Proof.
  intros Hm Hk w msg w' H. unfold bind in H.
  destruct (m w) as [[a|e] w1] eqn:E.
  - by eapply Hk.
  - injection H as -> ->. by eapply Hm.
Qed.

Lemma no_IOError_for_ {A} (l : list A) (body : A → M unit) :
  (∀ x, no_IOError (body x)) → no_IOError (for_ l body).
Proof.
  intros Hb. induction l as [|x l IH]; cbn [for_].
  - apply no_IOError_ret.
  - apply no_IOError_bind; [apply Hb | by intros _].
Qed.

Lemma no_IOError_mapM {A B} (f : A → M B) (l : list A) :
  (∀ x, no_IOError (f x)) → no_IOError (mapM f l).
Proof.
  intros Hb. induction l as [|x l IH]; cbn [mapM].
  - apply no_IOError_ret.
  - apply no_IOError_bind; [apply Hb | intros ?].
    apply no_IOError_bind; [done | intros ?; apply no_IOError_ret].
Qed.

Lemma no_IOError_filterM {A} (test : A → M bool) (l : list A) :
  (∀ x, no_IOError (test x)) → no_IOError (filterM test l).
Proof.
  intros Hb. induction l as [|x l IH]; cbn [filterM].
  - apply no_IOError_ret.
  - apply no_IOError_bind; [apply Hb | intros ?].
    apply no_IOError_bind; [done | intros ?; apply no_IOError_ret].
Qed.

Lemma no_IOError_mapM_enumerate {A B} (f : nat → A → M B) (l : list A) :
  (∀ i x, no_IOError (f i x)) → ∀ i, no_IOError (mapM_enumerate f i l).
Proof.
  intros Hb. induction l as [|x l IH]; intros i; cbn [mapM_enumerate].
  - apply no_IOError_ret.
  - apply no_IOError_bind; [apply Hb | intros ?].
    apply no_IOError_bind; [apply IH | intros ?; apply no_IOError_ret].
Qed.

Lemma no_IOError_walk_for body :
  (∀ top dirs nondirs, no_IOError (body top dirs nondirs)) →
  ∀ fuel stack, no_IOError (walk_for fuel stack body).
Proof.
  intros Hb. induction fuel as [|fuel IH]; intros stack; cbn [walk_for].
  - destruct stack; [apply no_IOError_ret | by apply no_IOError_raise].
  - destruct stack as [|top stack]; [apply no_IOError_ret|].
    intros w msg w'. destruct (scandir w top) as [[dirs nondirs]|].
    + apply no_IOError_bind; [apply Hb | intros _; apply IH].
    + apply IH.
Qed.

Lemma no_IOError_os_path_isfile p : no_IOError (os_path_isfile p).
Proof. by intros ???. Qed.

Lemma no_IOError_os_makedirs p : no_IOError (os_makedirs p).
Proof. unfold os_makedirs. no_IOError_by_cases. Qed.

Lemma no_IOError_dcmread p : no_IOError (dcmread p).
Proof. unfold dcmread. no_IOError_by_cases. Qed.

Lemma no_IOError_save_as f p : no_IOError (save_as f p).
Proof. unfold save_as. no_IOError_by_cases. Qed.

Lemma no_IOError_read_dicomdir p : no_IOError (read_dicomdir p).
Proof.
  unfold read_dicomdir. apply no_IOError_bind; [apply no_IOError_dcmread|].
  intros ds. destruct (patient_records ds);
    [apply no_IOError_ret | by apply no_IOError_raise].
Qed.

Lemma set_keyword_value_no_IOError keyword s ds msg :
  set_keyword_value keyword s ds ≠ Raise (IOError msg).
Proof. unfold set_keyword_value. by repeat case_match. Qed.

Lemma getattr_no_IOError ds keyword msg : getattr ds keyword ≠ Raise (IOError msg).
Proof. unfold getattr. by repeat case_match. Qed.

Lemma getitem_no_IOError ds keyword msg : getitem ds keyword ≠ Raise (IOError msg).
Proof. unfold getitem. by repeat case_match. Qed.

Lemma segments_no_IOError ee msg : segments ee ≠ Raise (IOError msg).
Proof. unfold segments. by repeat case_match. Qed.

Lemma no_IOError_anonymiseImageFile fname id name dob :
  no_IOError (anonymiseImageFile fname id name dob).
Proof.
  unfold anonymiseImageFile, assign.
  repeat first [ apply no_IOError_dcmread | apply no_IOError_ret
               | apply no_IOError_lift; intros ?; apply set_keyword_value_no_IOError
               | apply no_IOError_bind; [|intros ?] ].
Qed.

Lemma no_IOError_records_of_type ty l : no_IOError (records_of_type ty l).
Proof.
  unfold records_of_type. apply no_IOError_filterM. intros x.
  apply no_IOError_bind; [|intros ?; apply no_IOError_ret].
  apply no_IOError_lift. intros ?. apply getattr_no_IOError.
Qed.

Lemma no_IOError_for_path d o id name dob p :
  no_IOError (for_path d o id name dob p).
Proof.
  unfold for_path. destruct (Py.os_path_split p).
  apply no_IOError_bind; [apply no_IOError_os_makedirs | intros _].
  apply no_IOError_bind; [apply no_IOError_os_path_isfile | intros []];
    [|apply no_IOError_ret].
  apply no_IOError_bind; [apply no_IOError_anonymiseImageFile | intros ?].
  apply no_IOError_save_as.
Qed.

Lemma no_IOError_for_series d o id name dob series :
  no_IOError (for_series d o id name dob series).
Proof.
  unfold for_series.
  apply no_IOError_bind; [apply no_IOError_records_of_type | intros ?].
  apply no_IOError_bind.
  { apply no_IOError_mapM. intros ?. apply no_IOError_lift. intros ?.
    apply getitem_no_IOError. }
  intros ?. apply no_IOError_bind.
  { apply no_IOError_mapM. intros ?. apply no_IOError_lift. intros ?.
    apply segments_no_IOError. }
  intros ?. apply no_IOError_for_. intros ?. apply no_IOError_for_path.
Qed.

Lemma no_IOError_for_study d o id name dob study :
  no_IOError (for_study d o id name dob study).
Proof.
  unfold for_study.
  apply no_IOError_bind; [apply no_IOError_records_of_type | intros ?].
  apply no_IOError_for_. intros ?. apply no_IOError_for_series.
Qed.

Lemma no_IOError_for_patient d o n i patient :
  no_IOError (for_patient d o n i patient).
Proof.
  unfold for_patient.
  do 3 (apply no_IOError_bind;
        [apply no_IOError_lift; intros ?; apply getattr_no_IOError | intros ?]).
  do 3 (apply no_IOError_bind;
        [apply no_IOError_lift; intros ?; apply set_keyword_value_no_IOError | intros ?]).
  apply no_IOError_bind; [apply no_IOError_records_of_type | intros ?].
  apply no_IOError_bind; [|intros ?; apply no_IOError_ret].
  apply no_IOError_for_. intros ?. apply no_IOError_for_study.
Qed.

Lemma no_IOError_anonymiseDICOMDIR fname output_path :
  no_IOError (anonymiseDICOMDIR fname output_path).
Proof.
  unfold anonymiseDICOMDIR.
  apply no_IOError_bind; [apply no_IOError_read_dicomdir | intros ?].
  destruct (Py.os_path_split fname).
  apply no_IOError_bind; [|intros ?; apply no_IOError_ret].
  apply no_IOError_mapM_enumerate. intros ? ?. apply no_IOError_for_patient.
Qed.

Lemma no_IOError_for_directory fname output_path dirpath dirnames filenames :
  no_IOError (for_directory fname output_path dirpath dirnames filenames).
Proof.
  unfold for_directory. destruct (_ && _); [|apply no_IOError_ret].
  destruct (Py.os_path_relpath dirpath fname); [|by apply no_IOError_raise].
  apply no_IOError_bind; [apply no_IOError_os_makedirs | intros _].
  apply no_IOError_for_. intros f. unfold for_image_filename.
  apply no_IOError_bind; [apply no_IOError_anonymiseImageFile | intros ?].
  apply no_IOError_save_as.
Qed.

Lemma no_IOError_index_mode fname output_path : no_IOError (index_mode fname output_path).
Proof.
  unfold index_mode.
  apply no_IOError_bind; [apply no_IOError_anonymiseDICOMDIR | intros ?].
  apply no_IOError_bind; [apply no_IOError_save_as | intros ?; apply no_IOError_ret].
Qed.

Lemma no_IOError_directory_mode fuel input_path output_path :
  no_IOError (directory_mode fuel input_path output_path).
Proof.
  unfold directory_mode, anonymiseDirectory.
  apply no_IOError_bind; [|intros ?; apply no_IOError_ret].
  apply no_IOError_walk_for. intros ???. apply no_IOError_for_directory.
Qed.

Lemma no_IOError_single_file_mode input_path output_path :
  no_IOError (single_file_mode input_path output_path).
Proof.
  unfold single_file_mode.
  apply no_IOError_bind; [apply no_IOError_anonymiseImageFile | intros ?].
  apply no_IOError_bind; [apply no_IOError_save_as | intros ?; apply no_IOError_ret].
Qed.

(** ** Skipped images, leaf directories, second runs *)

Lemma for_path_missing d o id name dob p w :
  path_isfile w (source_of d p) = false →
  for_path d o id name dob p w =
  os_makedirs (Py.os_path_join o (Py.os_path_split p).1) w.
Proof.
  intros Hmiss. unfold for_path, source_of in *.
  destruct (Py.os_path_split p) as [dirname fname]. cbn [fst snd] in *.
  destruct (os_makedirs (Py.os_path_join o dirname) w) as [[[]|e] w1] eqn:Hmk.
  - rewrite (bind_of_Ok _ _ _ _ _ Hmk). unfold bind, os_path_isfile.
    by rewrite (os_makedirs_isfile _ _ _ _ _ Hmk), Hmiss.
  - by rewrite (bind_of_Raise _ _ _ _ _ Hmk).
Qed.






Lemma is_Some_lookup_patient_elements id name dob ds t :
  is_Some (patient_elements id name dob ds !! t) ↔ is_Some (ds !! t).
Proof. unfold patient_elements. by rewrite !is_Some_lookup_alter. Qed.




Lemma emits_walk_for P body :
  (∀ top dirs nondirs, emits P (body top dirs nondirs)) →
  ∀ fuel stack, emits P (walk_for fuel stack body).
Proof.
  intros Hb. induction fuel as [|fuel IH]; intros stack; cbn [walk_for].
  - destruct stack; [apply emits_ret | apply emits_raise].
  - destruct stack as [|top stack]; [apply emits_ret|].
    intros w r w'. destruct (scandir w top) as [[dirs nondirs]|].
    + apply emits_bind; [apply Hb | intros ? ? ? _; apply IH].
    + apply IH.
Qed.

(** Whatever its outcome, a directory-mode traversal saves only data sets
    with the fixed identity. *)
Lemma emits_anonymiseDirectory fuel fname output_path :
  emits (λ ev, has_identity "REMOVED" "REMOVED" "99991231" (elements ev.2))
        (anonymiseDirectory fuel fname output_path).
Proof.
  unfold anonymiseDirectory. apply emits_walk_for. intros top dirs nondirs.
  unfold for_directory. destruct (_ && _); [|apply emits_ret].
  destruct (Py.os_path_relpath top fname); [|apply emits_raise].
  apply emits_bind; [apply emits_os_makedirs | intros ? ? ? _].
  apply emits_for_. intros f _. unfold for_image_filename.
  apply emits_bind; [apply emits_anonymiseImageFile | intros wa instance wb Hrun].
  apply emits_save_as.
  apply anonymiseImageFile_Ok in Hrun as (instance0 & _ & _ & Hm & ->).
  by apply has_identity_anonymised_elements.
Qed.

(** A whole run over the sample tree: only the files of the leaf
    directory are saved. *)
Example directory_mode_run :
  let run := main 8 ["anonymize.py"; "d"; "out"] Sample.w_tree in
  run.1 = Ok 0%Z ∧ (saved run.2).*1 = ["out/series/a.dcm"; "out/series/b.dcm"].
Proof. vm_compute. repeat split. Qed.

(** ** The claims about the field anonymizer *)

(** C1.  Take the record that [anonymiseImageFile] reads from [fname].
    The call returns a record as soon as the six elements assigned
    unconditionally are present, whether or not the three optional tags
    are; and every record it returns has PatientID, PatientName and
    PatientBirthDate equal to the three arguments, InstitutionName,
    InstitutionAddress and StationName equal to "REMOVED", and each of
    (0008,0090), (0008,1048), (0032,1032) equal to "REMOVED" if the tag was
    present in the input and still absent if it was not. *)
Theorem anonymiseImageFile_redacts
    (fname PatientID PatientName PatientBirthDate : string)
    (w : World) (instance : FileDataset) :
  dcmread fname w = (Ok instance, w) →
  ((∀ t, t ∈ mandatory_tags → is_Some (elements instance !! t)) →
   ∃ r, anonymiseImageFile fname PatientID PatientName PatientBirthDate w = (Ok r, w)) ∧
  (∀ r w',
     anonymiseImageFile fname PatientID PatientName PatientBirthDate w = (Ok r, w') →
     value_at (elements r) (0x0010, 0x0020)%N = Some (VStr PatientID) ∧
     value_at (elements r) (0x0010, 0x0010)%N = Some (VStr PatientName) ∧
     value_at (elements r) (0x0010, 0x0030)%N = Some (VStr PatientBirthDate) ∧
     value_at (elements r) (0x0008, 0x0080)%N = Some (VStr "REMOVED") ∧
     value_at (elements r) (0x0008, 0x0081)%N = Some (VStr "REMOVED") ∧
     value_at (elements r) (0x0008, 0x1010)%N = Some (VStr "REMOVED") ∧
     (∀ t, t ∈ [(0x0008, 0x0090)%N; (0x0008, 0x1048)%N; (0x0032, 0x1032)%N] →
        (is_Some (elements instance !! t) →
         value_at (elements r) t = Some (VStr "REMOVED")) ∧
        (elements instance !! t = None → elements r !! t = None))).
Proof.
  intros Hread. split.
  - intros Hm. eexists. by apply anonymiseImageFile_total.
  - intros r w' Hrun.
    apply anonymiseImageFile_Ok in Hrun as (instance' & Hread' & -> & Hm & ->).
    rewrite Hread in Hread'. injection Hread' as <-.
    unfold value_at. cbn [elements with_elements].
    assert (∀ t v, redaction PatientID PatientName PatientBirthDate t = Some v →
                   is_Some (elements instance !! t) →
                   value <$> anonymised_elements PatientID PatientName PatientBirthDate
                               (elements instance) !! t = Some (VStr v)) as Hv.
    { intros t v Hr [e He]. by rewrite lookup_anonymised_elements, Hr, He. }
    split_and!; try (apply Hv; [reflexivity | apply Hm; unfold mandatory_tags; set_solver]).
    intros t Ht. split.
    + intros Hs. apply Hv; [|done].
      repeat (apply elem_of_cons in Ht as [-> | Ht]; [reflexivity |]).
      by apply elem_of_nil in Ht.
    + intros Hn. rewrite lookup_anonymised_elements, Hn.
      by destruct (redaction _ _ _ t).
Qed.

Lemma anonymiseImageFile_redacts_witness :
  ∃ r, anonymiseImageFile "scan.dcm" "ID" "NAME" "20000101" Sample.w_single
       = (Ok r, Sample.w_single).
Proof.
  apply (anonymiseImageFile_redacts "scan.dcm" "ID" "NAME" "20000101"
           Sample.w_single Sample.image).
  - vm_compute. reflexivity.
  - intros t Ht. unfold mandatory_tags in Ht.
    repeat (apply elem_of_cons in Ht as [-> | Ht]; [vm_compute; eauto |]).
    by apply elem_of_nil in Ht.
Defined.

(** C3.  A record returned by [anonymiseImageFile] differs from the record
    read only in the values of the nine identifying tags: every other
    element (pixel data, UIDs, acquisition parameters) is the input's, no
    element is added or removed, every element keeps its VR, and the
    preamble, the file meta information and the directory records are the
    input's.  The call leaves the world as it found it. *)
Theorem anonymiseImageFile_frame
    (fname PatientID PatientName PatientBirthDate : string)
    (w w' : World) (r : FileDataset) :
  anonymiseImageFile fname PatientID PatientName PatientBirthDate w = (Ok r, w') →
  ∃ instance,
    dcmread fname w = (Ok instance, w) ∧ w' = w ∧
    (∀ t, t ∉ [(0x0010, 0x0020)%N; (0x0010, 0x0010)%N; (0x0010, 0x0030)%N;
               (0x0008, 0x0080)%N; (0x0008, 0x0081)%N; (0x0008, 0x1010)%N;
               (0x0008, 0x0090)%N; (0x0008, 0x1048)%N; (0x0032, 0x1032)%N] →
          elements r !! t = elements instance !! t) ∧
    (∀ t, VR <$> elements r !! t = VR <$> elements instance !! t) ∧
    preamble r = preamble instance ∧
    file_meta r = file_meta instance ∧
    patient_records r = patient_records instance.
Proof.
  intros Hrun.
  apply anonymiseImageFile_Ok in Hrun as (instance & Hread & -> & Hm & ->).
  exists instance. split_and!; try done.
  - intros t Ht. cbn [elements with_elements].
    rewrite lookup_anonymised_elements, redaction_None; done.
  - intros t. cbn [elements with_elements]. rewrite lookup_anonymised_elements.
    destruct (redaction _ _ _ t); [|done]. by destruct (elements instance !! t).
Qed.

Lemma anonymiseImageFile_frame_witness :
  ∃ instance,
    dcmread "scan.dcm" Sample.w_single = (Ok instance, Sample.w_single) ∧
    elements instance !! (0x7FE0, 0x0010)%N = Some (Sample.el "OW" "pixels").
Proof.
  destruct (anonymiseImageFile_frame "scan.dcm" "ID" "NAME" "20000101"
              Sample.w_single Sample.w_single
              (with_elements Sample.image
                 (anonymised_elements "ID" "NAME" "20000101" Sample.image_elements)))
    as (instance & Hread & _ & Hother & _).
  - vm_compute. reflexivity.
  - exists instance. split; [exact Hread |].
    rewrite <- Hother; [vm_compute; reflexivity |].
    intros Hin. repeat (apply elem_of_cons in Hin as [Hin | Hin]; [discriminate Hin |]).
    by apply elem_of_nil in Hin.
Defined.

(** ** The claims about the index anonymizer *)



(** ** The claims about the entry point *)



(** C8.  The single-file branch of [main] never writes its result: [main]
    has created [output_path] as a directory just before, so the
    [save_as(output_path)] of the branch raises and nothing is saved.
    This holds in every world, and in particular for the image file
    [scan.dcm] and the fresh output path [anon.dcm], where [main] ends in
    [IsADirectoryError] and leaves [anon.dcm] as a directory. *)
Theorem single_file_mode_never_saves :
  (∀ (input_path output_path : string) (w : World),
     ∃ e w',
       (os_makedirs output_path ;; single_file_mode input_path output_path) w
         = (Raise e, w') ∧
       saved w' = saved w ∧
       path_isfile w' output_path = path_isfile w output_path) ∧
  (let run := main 8 ["anonymize.py"; "scan.dcm"; "anon.dcm"] Sample.w_single in
   path_isfile Sample.w_single "scan.dcm" = true ∧
   path_exists Sample.w_single "anon.dcm" = false ∧
   run.1 = Raise (IsADirectoryError "anon.dcm") ∧
   path_isdir run.2 "anon.dcm" = true ∧
   path_isfile run.2 "anon.dcm" = false ∧
   saved run.2 = []).
Proof.
  split.
  - intros input_path output_path w.
    destruct (os_makedirs output_path w) as [[[]|e] w1] eqn:Hmk.
    + destruct (single_file_mode_after_makedirs input_path _ _ _ Hmk) as [e He].
      exists e, w1. rewrite (bind_of_Ok _ _ _ _ _ Hmk). split_and!; [done | |].
      * by eapply os_makedirs_saved.
      * by eapply os_makedirs_isfile.
    + exists e, w1. rewrite (bind_of_Raise _ _ _ _ _ Hmk). split_and!; [done | |].
      * by eapply os_makedirs_saved.
      * by eapply os_makedirs_isfile.
  - vm_compute. repeat split.
Qed.

(** C9.  [isDICOMDIR] tests the last eight characters of the path, not the
    file name: it answers [True] exactly for an existing regular file whose
    path ends in "DICOMDIR".  The image file named [scanDICOMDIR] is
    therefore taken for an index: [main] dispatches it to the index branch,
    which fails in [read_dicomdir]. *)
Theorem isDICOMDIR_accepts_suffix :
  (∀ (fname : string) (w : World),
     isDICOMDIR fname w =
     (Ok (bool_decide (Py.slice_last 8 fname = "DICOMDIR") && path_isfile w fname), w)) ∧
  (let w := Sample.w_suffix in
   (Py.os_path_split "scanDICOMDIR").2 = "scanDICOMDIR" ∧
   dcmread "scanDICOMDIR" w = (Ok Sample.image, w) ∧
   isDICOMDIR "scanDICOMDIR" w = (Ok true, w) ∧
   main_dispatch 8 "scanDICOMDIR" "out" w = index_mode "scanDICOMDIR" "out" w ∧
   (main 8 ["anonymize.py"; "scanDICOMDIR"; "out"] w).1
     = Raise (InvalidDicomError "scanDICOMDIR")).
Proof.
  split; [apply isDICOMDIR_run |].
  vm_compute. repeat split.
Qed.

(** C10, as stated, fails: the image file [out/in.dcm] exists and is a
    regular file, the output directory [out] is reset before the dispatch,
    and [main] ends in its final [else]. *)
Lemma unsupported_input_for_regular_file :
  path_isfile Sample.w_inside "out/in.dcm" = true ∧
  (main 8 ["anonymize.py"; "out/in.dcm"; "out"] Sample.w_inside).1 =
  Raise (IOError
    "out/in.dcm exists but it is not a DICOMDIR file, nor a directory with DICOM image files.").
Proof. vm_compute. repeat split. Qed.

(** C10, amended.  In the world in which the dispatch of [main] runs (the
    output directory has been reset), an input path that is a regular file
    is handled by the index branch or by the single-file branch, and an
    input path that is a directory by the index branch on its DICOMDIR or
    by the directory branch; and whenever the dispatch ends in the
    [IOError] of [main], the input path is, in that world, neither a
    regular file nor a directory and the final [else] was taken. *)
Theorem dispatch_exhaustive (fuel : nat) (input_path output_path : string) (w : World) :
  (path_isfile w input_path = true →
   main_dispatch fuel input_path output_path w = index_mode input_path output_path w ∨
   main_dispatch fuel input_path output_path w =
     single_file_mode input_path output_path w) ∧
  (path_isdir w input_path = true →
   main_dispatch fuel input_path output_path w =
     index_mode (Py.os_path_join input_path "DICOMDIR") output_path w ∨
   main_dispatch fuel input_path output_path w =
     directory_mode fuel input_path output_path w) ∧
  (∀ msg w',
     main_dispatch fuel input_path output_path w = (Raise (IOError msg), w') →
     path_isfile w input_path = false ∧ path_isdir w input_path = false ∧
     main_dispatch fuel input_path output_path w = unsupported_input input_path w).
Proof.
  pose proof (main_dispatch_run fuel input_path output_path w) as Hrun.
  cbn zeta in Hrun. split_and!.
  - intros Hf. rewrite Hrun, Hf, (path_isfile_not_isdir _ _ Hf).
    rewrite !andb_true_r. cbn [andb]. clear Hrun.
    case_bool_decide; [by left | by right].
  - intros Hd. rewrite Hrun, Hd.
    assert (path_isfile w input_path = false) as ->.
    { destruct (path_isfile w input_path) eqn:Hf; [|done].
      apply path_isfile_not_isdir in Hf. congruence. }
    rewrite !andb_false_r. cbn [andb]. clear Hrun.
    destruct (_ && _); cbn [negb]; [by left | by right].
  - intros msg w' Hraise. rewrite Hrun in *.
    destruct (_ && _ && _); [by apply no_IOError_index_mode in Hraise|].
    destruct (path_isdir w input_path); cbn [andb] in *.
    + destruct (_ && _); cbn [negb] in *;
        [by apply no_IOError_index_mode in Hraise
        |by apply no_IOError_directory_mode in Hraise].
    + destruct (path_isfile w input_path);
        [by apply no_IOError_single_file_mode in Hraise | done].
Qed.

Lemma dispatch_exhaustive_witness :
  (main_dispatch 8 "scan.dcm" "out" Sample.w_single =
     index_mode "scan.dcm" "out" Sample.w_single ∨
   main_dispatch 8 "scan.dcm" "out" Sample.w_single =
     single_file_mode "scan.dcm" "out" Sample.w_single) ∧
  (main_dispatch 8 "d" "out" Sample.w_index =
     index_mode (Py.os_path_join "d" "DICOMDIR") "out" Sample.w_index ∨
   main_dispatch 8 "d" "out" Sample.w_index =
     directory_mode 8 "d" "out" Sample.w_index) ∧
  path_isfile Sample.w_special "fifo" = false ∧
  path_isdir Sample.w_special "fifo" = false.
Proof.
  split_and!.
  - apply (dispatch_exhaustive 8 "scan.dcm" "out" Sample.w_single).
    vm_compute. reflexivity.
  - apply (dispatch_exhaustive 8 "d" "out" Sample.w_index).
    vm_compute. reflexivity.
  - eapply (dispatch_exhaustive 8 "fifo" "out" Sample.w_special).
    vm_compute. reflexivity.
  - eapply (dispatch_exhaustive 8 "fifo" "out" Sample.w_special).
    vm_compute. reflexivity.
Defined.

(** ** The claims about the two traversals *)



(** C5, as stated, fails: the index of [d] references the image [A], which
    exists, and then the image [A/B], which does not (and cannot, [A] being
    a file).  Once [A] has been saved as the file [out/A], creating the
    mirrored directory [out/A] for the missing image raises. *)
Lemma missing_image_raises :
  let w1 := ((os_makedirs "out" ;;
              for_path "d" "out" "REMOVED" "REMOVED" "99991231" "A") Sample.w_clash).2 in
  path_isfile Sample.w_clash (source_of "d" "A/B") = false ∧
  path_isfile w1 (source_of "d" "A/B") = false ∧
  for_path "d" "out" "REMOVED" "REMOVED" "99991231" "A/B" w1
    = (Raise (FileExistsError "out/A"), w1) ∧
  (main 8 ["anonymize.py"; "d"; "out"] Sample.w_clash).1
    = Raise (FileExistsError "out/A").
Proof. vm_compute. repeat split. Qed.

(** C5, amended.  For a referenced image path whose source file does not
    exist, the step of the traversal does what the creation of the
    mirrored output directory does and nothing else; so, once that
    directory has been created, no error is raised, nothing is saved, no
    regular file appears anywhere, and the loop goes on with the remaining
    paths. *)
Theorem missing_image_is_skipped
    (dicomdir_dirname output_path new_ID new_name new_dob p : string) (w : World) :
  path_isfile w (source_of dicomdir_dirname p) = false →
  let body := for_path dicomdir_dirname output_path new_ID new_name new_dob in
  let output_image_directory :=
    Py.os_path_join output_path (Py.os_path_split p).1 in
  body p w = os_makedirs output_image_directory w ∧
  ∀ w1, os_makedirs output_image_directory w = (Ok tt, w1) →
    body p w = (Ok tt, w1) ∧
    saved w1 = saved w ∧
    (∀ q, path_isfile w1 q = path_isfile w q) ∧
    (∀ ps, for_ (p :: ps) body w = for_ ps body w1).
Proof.
  intros Hmiss body output_image_directory.
  pose proof (for_path_missing dicomdir_dirname output_path new_ID new_name new_dob
                p w Hmiss) as Hrun.
  split; [exact Hrun |]. intros w1 Hmk. fold output_image_directory in Hrun.
  fold body in Hrun. rewrite Hmk in Hrun. split_and!.
  - exact Hrun.
  - by eapply os_makedirs_saved.
  - intros q. by eapply os_makedirs_isfile.
  - intros ps. cbn [for_]. by rewrite (bind_of_Ok _ _ _ _ _ Hrun).
Qed.

Lemma missing_image_is_skipped_witness :
  for_path "d" "out" "REMOVED" "REMOVED" "99991231" "GONE/IMG" Sample.w_index
  = os_makedirs (Py.os_path_join "out" (Py.os_path_split "GONE/IMG").1) Sample.w_index.
Proof.
  destruct (missing_image_is_skipped "d" "out" "REMOVED" "REMOVED" "99991231"
              "GONE/IMG" Sample.w_index) as [Hskip _].
  - vm_compute. reflexivity.
  - exact Hskip.
Defined.



(** * Further properties of the program *)

(** ** The outcome of the field anonymizer *)

Lemma assign_absent keyword s instance w t :
  tag_for_keyword keyword = Some t → elements instance !! t = None →
  assign keyword s instance w = (Raise (KeyError t), w).
Proof.
  intros Ht He. unfold assign, bind, lift, set_keyword_value. by rewrite Ht, He.
Qed.

Lemma bind_assign_absent {B} keyword s instance (k : FileDataset → M B) w t :
  tag_for_keyword keyword = Some t → elements instance !! t = None →
  bind (assign keyword s instance) k w = (Raise (KeyError t), w).
Proof. intros Ht He. by rewrite (bind_of_Raise _ _ _ _ _ (assign_absent _ _ _ _ _ Ht He)). Qed.

Lemma lookup_alter_None (f : DataElement → DataElement) (ds : Dataset) i j :
  alter f i ds !! j = None ↔ ds !! j = None.
Proof. rewrite !eq_None_not_Some. by rewrite is_Some_lookup_alter. Qed.

(** X1.  The whole outcome of [anonymiseImageFile].  If [dcmread] raises, the
    call raises the same exception.  If it reads a data set that lacks one
    of the six elements assigned unconditionally, the call raises
    [KeyError] for the first one missing, in the order PatientID,
    PatientName, PatientBirthDate, InstitutionName, InstitutionAddress,
    StationName.  Otherwise it returns the data set with the nine
    redactions.  In every case the world is left as it was. *)
Theorem anonymiseImageFile_outcome
    (fname PatientID PatientName PatientBirthDate : string) (w : World) :
  anonymiseImageFile fname PatientID PatientName PatientBirthDate w =
  match dcmread fname w with
  | (Ok instance, _) =>
      match first_missing
              [(0x0010, 0x0020)%N; (0x0010, 0x0010)%N; (0x0010, 0x0030)%N;
               (0x0008, 0x0080)%N; (0x0008, 0x0081)%N; (0x0008, 0x1010)%N]
              (elements instance) with
      | Some t => (Raise (KeyError t), w)
      | None =>
          (Ok (with_elements instance
                 (anonymised_elements PatientID PatientName PatientBirthDate
                    (elements instance))), w)
      end
  | (Raise e, _) => (Raise e, w)
  end.
Proof.
  destruct (dcmread fname w) as [[instance|e] w1] eqn:Hread;
    pose proof (dcmread_world _ _ _ _ Hread) as ->.
  2:{ unfold anonymiseImageFile. by rewrite (bind_of_Raise _ _ _ _ _ Hread). }
  destruct (first_missing _ (elements instance)) as [t|] eqn:Hmiss.
  - unfold anonymiseImageFile. rewrite (bind_of_Ok _ _ _ _ _ Hread).
    cbn [first_missing] in Hmiss.
    repeat match type of Hmiss with
      | match ?x with _ => _ end = _ =>
          let E := fresh "E" in
          destruct x eqn:E; cbv iota in Hmiss;
          [ erewrite bind_assign_present;
              [ | reflexivity
                | cbn [elements with_elements];
                  rewrite ?is_Some_lookup_alter; by eapply mk_is_Some ]
          | injection Hmiss as <-;
            apply bind_assign_absent;
            [ reflexivity
            | cbn [elements with_elements]; by rewrite ?lookup_alter_None ] ]
      end.
    discriminate Hmiss.
  - apply anonymiseImageFile_total; [done|].
    intros t Ht. unfold mandatory_tags, PatientID_tag, PatientName_tag,
      PatientBirthDate_tag, InstitutionName_tag, InstitutionAddress_tag,
      StationName_tag in Ht.
    cbn [first_missing] in Hmiss.
    repeat match type of Hmiss with
      | match ?x with _ => _ end = _ =>
          let E := fresh "E" in
          destruct x eqn:E; cbv iota in Hmiss; [|discriminate Hmiss]
      end.
    repeat (apply elem_of_cons in Ht as [-> | Ht]; [by eapply mk_is_Some |]).
    by apply elem_of_nil in Ht.
Qed.

(** [tree_mkdirs] keeps every directory. *)
Lemma tree_mkdirs_dirs cp : ∀ t t' q es,
  tree_mkdirs cp t = Some t' → tree_lookup q t = Some (Dir es) →
  ∃ es', tree_lookup q t' = Some (Dir es').
Proof.
  induction cp as [|c cp IH]; intros t t' q es Hmk Hl.
  - destruct t; cbn in Hmk; simplify_eq. eauto.
  - destruct t as [| |es0]; cbn in Hmk; try discriminate.
    destruct (tree_mkdirs cp (default (Dir ∅) (es0 !! c))) as [child|] eqn:Hc;
      cbn in Hmk; [|discriminate].
    injection Hmk as <-.
    destruct q as [|c0 q]; [cbn; eauto|].
    rewrite tree_lookup_cons in *.
    destruct (decide (c0 = c)) as [->|Hne].
    + rewrite lookup_insert_eq. cbn.
      destruct (es0 !! c) as [n|]; cbn in Hl, Hc; [|done].
      exact (IH _ _ _ _ Hc Hl).
    + rewrite lookup_insert_ne by done. eauto.
Qed.


Lemma tree_write_deeper c c' cp new es :
  tree_write (c :: c' :: cp) new (Dir es) =
  child ← es !! c; child' ← tree_write (c' :: cp) new child;
  Some (Dir (<[c := child']> es)).
Proof. done. Qed.

(** Writing a regular file where there is a regular file or nothing keeps
    the kind of every node. *)
Lemma tree_write_kinds cp : ∀ c t t' q n,
  tree_write cp (File c) t = Some t' →
  (∀ es, tree_lookup cp t ≠ Some (Dir es)) → tree_lookup cp t ≠ Some Special →
  tree_lookup q t = Some n →
  ∃ n', tree_lookup q t' = Some n' ∧ is_dir n' = is_dir n ∧ is_file n' = is_file n.
Proof.
  induction cp as [|c0 cp IH]; intros c t t' q n Hw Hnd Hns Hl; [done|].
  destruct t as [| |es]; try (by destruct cp).
  destruct q as [|c1 q].
  { cbn in Hl. injection Hl as <-.
    destruct cp as [|c' cp].
    - cbn in Hw. injection Hw as <-. cbn. eauto.
    - rewrite tree_write_deeper in Hw.
      destruct (es !! c0) as [child|]; cbn [mbind option_bind] in Hw; [|done].
      destruct (tree_write (c' :: cp) (File c) child); cbn [mbind option_bind] in Hw; [|done].
      injection Hw as <-. cbn. eauto. }
  rewrite tree_lookup_cons in Hl.
  destruct cp as [|c' cp].
  - cbn in Hw. injection Hw as <-. rewrite tree_lookup_cons.
    destruct (decide (c1 = c0)) as [->|Hne].
    + rewrite lookup_insert_eq. cbn.
      rewrite tree_lookup_cons in Hnd, Hns.
      destruct (es !! c0) as [[c2| |es2]|]; cbn in *; try done.
      * destruct q; [|done]. cbn in Hl. injection Hl as <-. cbn. eauto.
      * by destruct (Hnd es2).
    + rewrite lookup_insert_ne by done. eauto.
  - rewrite tree_write_deeper in Hw.
    destruct (es !! c0) as [child|] eqn:Hc; cbn [mbind option_bind] in Hw; [|done].
    destruct (tree_write (c' :: cp) (File c) child) as [child'|] eqn:Hw'; cbn [mbind option_bind] in Hw; [|done].
    injection Hw as <-. rewrite tree_lookup_cons.
    destruct (decide (c1 = c0)) as [->|Hne].
    + rewrite lookup_insert_eq. cbn. rewrite Hc in Hl. cbn in Hl.
      eapply IH; [done | | | done].
      * intros es'. specialize (Hnd es'). by rewrite tree_lookup_cons, Hc in Hnd.
      * by rewrite tree_lookup_cons, Hc in Hns.
    + rewrite lookup_insert_ne by done. eauto.
Qed.


(** ** Computations that remove nothing *)

Lemma keeps_entries_stateless {A} (m : M A) : stateless m → keeps_entries m.
Proof. intros Hm w r w' H q. by rewrite (Hm _ _ _ H). Qed.

Lemma keeps_entries_ret {A} (a : A) : keeps_entries (ret a).
Proof. apply keeps_entries_stateless, stateless_ret. Qed.

Lemma keeps_entries_raise {A} e : keeps_entries (raise (A:=A) e).
Proof. apply keeps_entries_stateless, stateless_raise. Qed.

Lemma keeps_entries_lift {A} (r : Result A) : keeps_entries (lift r).
Proof. apply keeps_entries_stateless, stateless_lift. Qed.

Lemma keeps_entries_bind {A B} (m : M A) (k : A → M B) :
  keeps_entries m → (∀ a, keeps_entries (k a)) → keeps_entries (bind m k).
Proof.
  intros Hm Hk w r w' H q. unfold bind in H.
  destruct (m w) as [[a|e] w1] eqn:E.
  - destruct (Hm _ _ _ E q) as [Hd Hf]. destruct (Hk _ _ _ _ H q) as [Hd' Hf'].
    split; eauto.
  - injection H as <- <-. by eapply Hm.
Qed.

Lemma keeps_entries_for_ {A} (l : list A) (body : A → M unit) :
  (∀ x, keeps_entries (body x)) → keeps_entries (for_ l body).
Proof.
  intros Hb. induction l as [|x l IH]; cbn [for_].
  - apply keeps_entries_ret.
  - apply keeps_entries_bind; [apply Hb | by intros _].
Qed.

Lemma keeps_entries_mapM {A B} (f : A → M B) (l : list A) :
  (∀ x, keeps_entries (f x)) → keeps_entries (mapM f l).
Proof.
  intros Hb. induction l as [|x l IH]; cbn [mapM].
  - apply keeps_entries_ret.
  - apply keeps_entries_bind; [apply Hb | intros ?].
    apply keeps_entries_bind; [done | intros ?; apply keeps_entries_ret].
Qed.

Lemma keeps_entries_filterM {A} (test : A → M bool) (l : list A) :
  (∀ x, keeps_entries (test x)) → keeps_entries (filterM test l).
Proof.
  intros Hb. induction l as [|x l IH]; cbn [filterM].
  - apply keeps_entries_ret.
  - apply keeps_entries_bind; [apply Hb | intros ?].
    apply keeps_entries_bind; [done | intros ?; apply keeps_entries_ret].
Qed.

Lemma keeps_entries_mapM_enumerate {A B} (f : nat → A → M B) (l : list A) :
  (∀ i x, keeps_entries (f i x)) → ∀ i, keeps_entries (mapM_enumerate f i l).
Proof.
  intros Hb. induction l as [|x l IH]; intros i; cbn [mapM_enumerate].
  - apply keeps_entries_ret.
  - apply keeps_entries_bind; [apply Hb | intros ?].
    apply keeps_entries_bind; [apply IH | intros ?; apply keeps_entries_ret].
Qed.

Lemma keeps_entries_walk_for body :
  (∀ top dirs nondirs, keeps_entries (body top dirs nondirs)) →
  ∀ fuel stack, keeps_entries (walk_for fuel stack body).
Proof.
  intros Hb. induction fuel as [|fuel IH]; intros stack; cbn [walk_for].
  - destruct stack; [apply keeps_entries_ret | apply keeps_entries_raise].
  - destruct stack as [|top stack]; [apply keeps_entries_ret|].
    intros w r w'. destruct (scandir w top) as [[dirs nondirs]|].
    + apply keeps_entries_bind; [apply Hb | intros _; apply IH].
    + apply IH.
Qed.

Lemma os_makedirs_keeps_isdir p w r w' q :
  os_makedirs p w = (r, w') → path_isdir w q = true → path_isdir w' q = true.
Proof.
  unfold os_makedirs. intros H.
  destruct (resolve p) as [[cp d]|]; [|by injection H as _ <-].
  destruct (tree_mkdirs cp (fs w)) as [t|] eqn:Hmk; [|by injection H as _ <-].
  injection H as _ <-. unfold path_isdir, lookup_path. cbn [fs].
  destruct (resolve q) as [[cq dq]|]; [|done].
  destruct (tree_lookup cq (fs w)) as [[?| |es]|] eqn:Hl; try done.
  destruct (tree_mkdirs_dirs _ _ _ _ _ Hmk Hl) as [es' ->]. done.
Qed.

Lemma keeps_entries_os_makedirs p : keeps_entries (os_makedirs p).
Proof.
  intros w r w' H q. split.
  - by eapply os_makedirs_keeps_isdir.
  - by rewrite (os_makedirs_isfile _ _ _ _ q H).
Qed.

Lemma keeps_entries_save_as f p : keeps_entries (save_as f p).
Proof.
  intros w r w' H q. unfold save_as in H.
  destruct (resolve p) as [[cp d]|]; [|by injection H as _ <-].
  assert (∀ t, tree_write cp (File (Dicom f)) (fs w) = Some t →
               (∀ es, tree_lookup cp (fs w) ≠ Some (Dir es)) →
               tree_lookup cp (fs w) ≠ Some Special →
               (path_isdir w q = true →
                path_isdir {| fs := t; saved := (saved w ++ [(p, f)])%list |} q = true) ∧
               (path_isfile w q = true →
                path_isfile {| fs := t; saved := (saved w ++ [(p, f)])%list |} q = true))
    as Hwrite.
  { intros t Hw Hnd Hns. unfold path_isdir, path_isfile, lookup_path. cbn [fs].
    destruct (resolve q) as [[cq dq]|]; [|done].
    destruct (tree_lookup cq (fs w)) as [n|] eqn:Hl; [|done].
    destruct (tree_write_kinds _ _ _ _ _ _ Hw Hnd Hns Hl) as (n' & -> & Hd & Hf).
    by destruct n, n'. }
  destruct (tree_lookup cp (fs w)) as [[c| |es]|] eqn:Hl.
  - destruct d; [by injection H as _ <-|].
    destruct (tree_write cp (File (Dicom f)) (fs w)) as [t|] eqn:Hw;
      [|by injection H as _ <-].
    injection H as _ <-. by apply Hwrite.
  - destruct d; by injection H as _ <-.
  - by injection H as _ <-.
  - destruct d; [by injection H as _ <-|].
    destruct (tree_write cp (File (Dicom f)) (fs w)) as [t|] eqn:Hw;
      [|by injection H as _ <-].
    injection H as _ <-. by apply Hwrite.
Qed.

Lemma stateless_records_of_type ty l : stateless (records_of_type ty l).
Proof.
  unfold records_of_type. induction l as [|x l IH]; cbn [filterM].
  - apply stateless_ret.
  - apply stateless_bind.
    + apply stateless_bind; [apply stateless_lift | intros; apply stateless_ret].
    + intros ?. apply stateless_bind; [done | intros; apply stateless_ret].
Qed.

Lemma keeps_entries_for_path d o id name dob p :
  keeps_entries (for_path d o id name dob p).
Proof.
  unfold for_path. destruct (Py.os_path_split p).
  apply keeps_entries_bind; [apply keeps_entries_os_makedirs | intros _].
  apply keeps_entries_bind.
  { apply keeps_entries_stateless. by intros ??? [= _ ->]. }
  intros []; [|apply keeps_entries_ret].
  apply keeps_entries_bind.
  { apply keeps_entries_stateless, stateless_anonymiseImageFile. }
  intros ?. apply keeps_entries_save_as.
Qed.

Lemma keeps_entries_for_series d o id name dob series :
  keeps_entries (for_series d o id name dob series).
Proof.
  unfold for_series.
  apply keeps_entries_bind;
    [apply keeps_entries_stateless, stateless_records_of_type | intros ?].
  apply keeps_entries_bind.
  { apply keeps_entries_mapM. intros ?. apply keeps_entries_lift. }
  intros ?. apply keeps_entries_bind.
  { apply keeps_entries_mapM. intros ?. apply keeps_entries_lift. }
  intros ?. apply keeps_entries_for_. intros ?. apply keeps_entries_for_path.
Qed.

Lemma keeps_entries_for_patient d o n i patient :
  keeps_entries (for_patient d o n i patient).
Proof.
  unfold for_patient.
  do 6 (apply keeps_entries_bind; [apply keeps_entries_lift | intros ?]).
  apply keeps_entries_bind;
    [apply keeps_entries_stateless, stateless_records_of_type | intros ?].
  apply keeps_entries_bind; [|intros ?; apply keeps_entries_ret].
  apply keeps_entries_for_. intros study. unfold for_study.
  apply keeps_entries_bind;
    [apply keeps_entries_stateless, stateless_records_of_type | intros ?].
  apply keeps_entries_for_. intros ?. apply keeps_entries_for_series.
Qed.

Lemma stateless_read_dicomdir p : stateless (read_dicomdir p).
Proof.
  unfold read_dicomdir. apply stateless_bind; [apply stateless_dcmread | intros ds].
  destruct (patient_records ds); [apply stateless_ret | apply stateless_raise].
Qed.

(** X2.  Whatever its outcome, [anonymiseDICOMDIR] removes nothing: a path
    that was a directory is a directory afterwards, a path that was a
    regular file is a regular file afterwards. *)
Theorem anonymiseDICOMDIR_keeps_entries (fname output_path : string)
    (w w' : World) (r : Result FileDataset) (q : string) :
  anonymiseDICOMDIR fname output_path w = (r, w') →
  (path_isdir w q = true → path_isdir w' q = true) ∧
  (path_isfile w q = true → path_isfile w' q = true).
Proof.
  intros H. revert q. revert w r w' H. change (keeps_entries (anonymiseDICOMDIR fname output_path)).
  unfold anonymiseDICOMDIR.
  apply keeps_entries_bind;
    [apply keeps_entries_stateless, stateless_read_dicomdir | intros ?].
  destruct (Py.os_path_split fname).
  apply keeps_entries_bind; [|intros ?; apply keeps_entries_ret].
  apply keeps_entries_mapM_enumerate. intros ? ?. apply keeps_entries_for_patient.
Qed.

Lemma anonymiseDICOMDIR_keeps_entries_witness :
  path_isfile (anonymiseDICOMDIR "d/DICOMDIR" "out" Sample.w_index).2 "d/IMG1" = true.
Proof.
  eapply (anonymiseDICOMDIR_keeps_entries "d/DICOMDIR" "out" Sample.w_index).
  - apply surjective_pairing.
  - vm_compute. reflexivity.
Defined.

(** X3.  Whatever its outcome, [anonymiseDirectory] removes nothing: a path
    that was a directory is a directory afterwards, a path that was a
    regular file is a regular file afterwards. *)
Theorem anonymiseDirectory_keeps_entries (fuel : nat) (fname output_path : string)
    (w w' : World) (r : Result unit) (q : string) :
  anonymiseDirectory fuel fname output_path w = (r, w') →
  (path_isdir w q = true → path_isdir w' q = true) ∧
  (path_isfile w q = true → path_isfile w' q = true).
Proof.
  intros H. revert q. revert w r w' H.
  change (keeps_entries (anonymiseDirectory fuel fname output_path)).
  unfold anonymiseDirectory. apply keeps_entries_walk_for. intros top dirs nondirs.
  unfold for_directory. destruct (_ && _); [|apply keeps_entries_ret].
  destruct (Py.os_path_relpath top fname); [|apply keeps_entries_raise].
  apply keeps_entries_bind; [apply keeps_entries_os_makedirs | intros _].
  apply keeps_entries_for_. intros f. unfold for_image_filename.
  apply keeps_entries_bind.
  { apply keeps_entries_stateless, stateless_anonymiseImageFile. }
  intros ?. apply keeps_entries_save_as.
Qed.

Lemma anonymiseDirectory_keeps_entries_witness :
  path_isfile (anonymiseDirectory 8 "d" "out" Sample.w_tree).2 "d/mixed/x.dcm" = true.
Proof.
  eapply (anonymiseDirectory_keeps_entries 8 "d" "out" Sample.w_tree).
  - apply surjective_pairing.
  - vm_compute. reflexivity.
Defined.

(** ** Paths that end in DICOMDIR *)

Lemma append_cons (x : ascii) (a b : string) : String x a +:+ b = String x (a +:+ b).
Proof. reflexivity. Qed.

Lemma string_app_assoc (a b c : string) : (a +:+ b) +:+ c = a +:+ (b +:+ c).
Proof. induction a as [|x a IH]; [done|]. by rewrite !append_cons, IH. Qed.

Lemma string_length_app (a b : string) :
  String.length (a +:+ b) = String.length a + String.length b.
Proof. induction a as [|x a IH]; [done|]. rewrite append_cons. cbn. by rewrite IH. Qed.

Lemma substring_all (s : string) : String.substring 0 (String.length s) s = s.
Proof. induction s as [|x s IH]; [done|]. cbn. by rewrite IH. Qed.

Lemma substring_skip (a s : string) n :
  String.substring (String.length a) n (a +:+ s) = String.substring 0 n s.
Proof. induction a as [|x a IH]; [done|]. rewrite append_cons. exact IH. Qed.

(** [(a + s)[-len(s):] == s]. *)
Lemma slice_last_app (a s : string) : Py.slice_last (String.length s) (a +:+ s) = s.
Proof.
  unfold Py.slice_last. rewrite string_length_app.
  replace (String.length a + String.length s - String.length s) with (String.length a)
    by lia.
  by rewrite substring_skip, substring_all.
Qed.

Lemma os_path_join_DICOMDIR (a : string) :
  ∃ b, Py.os_path_join a "DICOMDIR" = b +:+ "DICOMDIR".
Proof.
  unfold Py.os_path_join.
  change (Py.startswith_sep "DICOMDIR") with false. cbv iota.
  destruct (_ || _); [by exists a|].
  exists (a +:+ "/"). by rewrite string_app_assoc.
Qed.

Lemma slice_last_os_path_join_DICOMDIR (a : string) :
  Py.slice_last 8 (Py.os_path_join a "DICOMDIR") = "DICOMDIR".
Proof.
  destruct (os_path_join_DICOMDIR a) as [b ->].
  exact (slice_last_app b "DICOMDIR").
Qed.

Lemma split_sep_nonempty (s : string) : Py.split_sep s ≠ [].
Proof.
  destruct s as [|c s]; cbn; [done|].
  destruct (Ascii.eqb c "/"); [done|]. by destruct (Py.split_sep s).
Qed.

(** ["/".join(s.split("/")) == s]. *)
Lemma concat_split_sep (s : string) : String.concat "/" (Py.split_sep s) = s.
Proof.
  induction s as [|c s IH]; [done|]. cbn [Py.split_sep].
  destruct (Ascii.eqb c "/") eqn:Hc.
  - apply Ascii.eqb_eq in Hc as ->.
    destruct (Py.split_sep s) as [|x xs] eqn:E; [by apply split_sep_nonempty in E|].
    change (String.concat "/" ("" :: x :: xs))
      with ("" +:+ "/" +:+ String.concat "/" (x :: xs)).
    by rewrite IH.
  - destruct (Py.split_sep s) as [|x xs] eqn:E; [by apply split_sep_nonempty in E|].
    destruct xs as [|y ys].
    + cbn in *. by rewrite IH.
    + change (String.concat "/" (String c x :: y :: ys))
        with (String c (x +:+ "/" +:+ String.concat "/" (y :: ys))).
      by rewrite <- IH.
Qed.

Lemma concat_ends_with_last (l : list string) :
  l ≠ [] → ∃ a, String.concat "/" l = a +:+ List.last l "".
Proof.
  induction l as [|x l IH]; [done|]. intros _.
  destruct l as [|y l]; [by exists ""|].
  destruct (IH ltac:(done)) as [a Ha].
  exists (x +:+ "/" +:+ a).
  change (String.concat "/" (x :: y :: l))
    with (x +:+ "/" +:+ String.concat "/" (y :: l)).
  rewrite Ha. change (List.last (x :: y :: l) "") with (List.last (y :: l) "").
  by rewrite !string_app_assoc.
Qed.

(** A path ends with its last component. *)
Lemma path_ends_with_basename (p : string) :
  ∃ a, p = a +:+ (Py.os_path_split p).2.
Proof.
  destruct (concat_ends_with_last (Py.split_sep p) (split_sep_nonempty p)) as [a Ha].
  rewrite concat_split_sep in Ha. by exists a.
Qed.

Lemma slice_last_basename_DICOMDIR (p : string) :
  (Py.os_path_split p).2 = "DICOMDIR" → Py.slice_last 8 p = "DICOMDIR".
Proof.
  intros Hb. destruct (path_ends_with_basename p) as [a Ha].
  rewrite Hb in Ha. rewrite Ha. exact (slice_last_app a "DICOMDIR").
Qed.

(** X4.  For an input path that is a directory, [main] chooses between its two
    directory branches by one test: the index branch on
    [input_path/DICOMDIR] when that path is a regular file, the directory
    branch otherwise. *)
Theorem directory_input_dispatch (fuel : nat) (input_path output_path : string)
    (w : World) :
  path_isdir w input_path = true →
  main_dispatch fuel input_path output_path w =
  if path_isfile w (Py.os_path_join input_path "DICOMDIR")
  then index_mode (Py.os_path_join input_path "DICOMDIR") output_path w
  else directory_mode fuel input_path output_path w.
Proof.
  intros Hd. rewrite main_dispatch_run. cbv zeta.
  rewrite slice_last_os_path_join_DICOMDIR, Hd.
  assert (path_isfile w input_path = false) as ->.
  { destruct (path_isfile w input_path) eqn:Hf; [|done].
    apply path_isfile_not_isdir in Hf. congruence. }
  rewrite !andb_false_r. rewrite bool_decide_eq_true_2 by done. cbn [andb].
  by destruct (path_isfile w _).
Qed.

Lemma directory_input_dispatch_witness :
  main_dispatch 8 "d" "out" Sample.w_index =
    index_mode (Py.os_path_join "d" "DICOMDIR") "out" Sample.w_index ∧
  main_dispatch 8 "d" "out" Sample.w_tree = directory_mode 8 "d" "out" Sample.w_tree.
Proof.
  split.
  - rewrite (directory_input_dispatch 8 "d" "out" Sample.w_index).
    + reflexivity.
    + vm_compute. reflexivity.
  - rewrite (directory_input_dispatch 8 "d" "out" Sample.w_tree).
    + reflexivity.
    + vm_compute. reflexivity.
Defined.

(** X5.  An existing regular file whose name (the last component of its path)
    is DICOMDIR is recognised by [isDICOMDIR] and sent to the index
    branch of [main]. *)
Theorem file_named_DICOMDIR_is_index (fuel : nat) (input_path output_path : string)
    (w : World) :
  (Py.os_path_split input_path).2 = "DICOMDIR" →
  path_isfile w input_path = true →
  isDICOMDIR input_path w = (Ok true, w) ∧
  main_dispatch fuel input_path output_path w = index_mode input_path output_path w.
Proof.
  intros Hb Hf. pose proof (slice_last_basename_DICOMDIR _ Hb) as Hs. split.
  - rewrite isDICOMDIR_run, Hf. by rewrite bool_decide_eq_true_2.
  - rewrite main_dispatch_run. cbv zeta. rewrite Hf.
    by rewrite bool_decide_eq_true_2.
Qed.

Lemma file_named_DICOMDIR_is_index_witness :
  main_dispatch 8 "d/DICOMDIR" "out" Sample.w_index =
  index_mode "d/DICOMDIR" "out" Sample.w_index.
Proof.
  apply (file_named_DICOMDIR_is_index 8 "d/DICOMDIR" "out" Sample.w_index).
  - vm_compute. reflexivity.
  - vm_compute. reflexivity.
Defined.

(** ** The preparation of the output directory *)














(** ** Which exceptions a run raises *)

Lemma raises_only_weaken {A} (P Q : exn → Prop) (m : M A) :
  (∀ e, P e → Q e) → raises_only P m → raises_only Q m.
Proof. intros HPQ Hm w e w' H. by eapply HPQ, Hm. Qed.

Lemma raises_only_ret {A} P (a : A) : raises_only P (ret a).
Proof. by intros ???. Qed.

Lemma raises_only_raise {A} (P : exn → Prop) e : P e → raises_only P (raise (A:=A) e).
Proof. by intros He ??? [= <- _]. Qed.

Lemma raises_only_lift {A} (P : exn → Prop) (r : Result A) :
  (∀ e, r = Raise e → P e) → raises_only P (lift r).
Proof. intros Hr ??? [= -> _]. by apply Hr. Qed.

Lemma raises_only_bind {A B} P (m : M A) (k : A → M B) :
  raises_only P m → (∀ a, raises_only P (k a)) → raises_only P (bind m k).
Proof.
  intros Hm Hk w e w' H. apply bind_Raise in H as [H | (a & w1 & _ & H)].
  - by eapply Hm.
  - by eapply Hk.
Qed.

Lemma raises_only_for_ {A} P (l : list A) (body : A → M unit) :
  (∀ x, raises_only P (body x)) → raises_only P (for_ l body).
Proof.
  intros Hb. induction l as [|x l IH]; cbn [for_].
  - apply raises_only_ret.
  - apply raises_only_bind; [apply Hb | by intros _].
Qed.

Lemma raises_only_mapM {A B} P (f : A → M B) (l : list A) :
  (∀ x, raises_only P (f x)) → raises_only P (mapM f l).
Proof.
  intros Hb. induction l as [|x l IH]; cbn [mapM].
  - apply raises_only_ret.
  - apply raises_only_bind; [apply Hb | intros ?].
    apply raises_only_bind; [done | intros ?; apply raises_only_ret].
Qed.

Lemma raises_only_filterM {A} P (test : A → M bool) (l : list A) :
  (∀ x, raises_only P (test x)) → raises_only P (filterM test l).
Proof.
  intros Hb. induction l as [|x l IH]; cbn [filterM].
  - apply raises_only_ret.
  - apply raises_only_bind; [apply Hb | intros ?].
    apply raises_only_bind; [done | intros ?; apply raises_only_ret].
Qed.

Lemma raises_only_mapM_enumerate {A B} P (f : nat → A → M B) (l : list A) :
  (∀ i x, raises_only P (f i x)) → ∀ i, raises_only P (mapM_enumerate f i l).
Proof.
  intros Hb. induction l as [|x l IH]; intros i; cbn [mapM_enumerate].
  - apply raises_only_ret.
  - apply raises_only_bind; [apply Hb | intros ?].
    apply raises_only_bind; [apply IH | intros ?; apply raises_only_ret].
Qed.

Lemma raises_only_walk_for (P : exn → Prop) body :
  P OutOfFuel →
  (∀ top dirs nondirs, raises_only P (body top dirs nondirs)) →
  ∀ fuel stack, raises_only P (walk_for fuel stack body).
Proof.
  intros Hf Hb. induction fuel as [|fuel IH]; intros stack; cbn [walk_for].
  - destruct stack; [apply raises_only_ret | by apply raises_only_raise].
  - destruct stack as [|top stack]; [apply raises_only_ret|].
    intros w e w'. destruct (scandir w top) as [[dirs nondirs]|].
    + apply raises_only_bind; [apply Hb | intros _; apply IH].
    + apply IH.
Qed.

Ltac library_error_by_cases :=
  let H := fresh in
  intros ? ? ? H;
  repeat match type of H with
         | context [match ?x with _ => _ end] => destruct x
         end; by inversion H.

Lemma raises_library_os_makedirs p :
  raises_only (λ e, library_error e = true) (os_makedirs p).
Proof. unfold os_makedirs. library_error_by_cases. Qed.

Lemma raises_library_dcmread p :
  raises_only (λ e, library_error e = true) (dcmread p).
Proof. unfold dcmread. library_error_by_cases. Qed.

Lemma raises_library_save_as f p :
  raises_only (λ e, library_error e = true) (save_as f p).
Proof. unfold save_as. library_error_by_cases. Qed.

Lemma raises_library_shutil_rmtree p :
  raises_only (λ e, library_error e = true) (shutil_rmtree p).
Proof. unfold shutil_rmtree. library_error_by_cases. Qed.

Lemma raises_library_read_dicomdir p :
  raises_only (λ e, library_error e = true) (read_dicomdir p).
Proof.
  unfold read_dicomdir. apply raises_only_bind; [apply raises_library_dcmread|].
  intros ds. destruct (patient_records ds);
    [apply raises_only_ret | by apply raises_only_raise].
Qed.

Lemma set_keyword_value_library keyword s ds e :
  set_keyword_value keyword s ds = Raise e → library_error e = true.
Proof. unfold set_keyword_value. repeat case_match; by intros [= <-]. Qed.

Lemma getattr_library ds keyword e : getattr ds keyword = Raise e → library_error e = true.
Proof. unfold getattr. repeat case_match; by intros [= <-]. Qed.

Lemma getitem_library ds keyword e : getitem ds keyword = Raise e → library_error e = true.
Proof. unfold getitem. repeat case_match; by intros [= <-]. Qed.

Lemma segments_library ee e : segments ee = Raise e → library_error e = true.
Proof. unfold segments. repeat case_match; by intros [= <-]. Qed.

Lemma raises_library_anonymiseImageFile fname id name dob :
  raises_only (λ e, library_error e = true) (anonymiseImageFile fname id name dob).
Proof.
  unfold anonymiseImageFile, assign.
  repeat first [ apply raises_library_dcmread | apply raises_only_ret
               | apply raises_only_lift; intros ?; apply set_keyword_value_library
               | apply raises_only_bind; [|intros ?] ].
Qed.

Lemma raises_library_records_of_type ty l :
  raises_only (λ e, library_error e = true) (records_of_type ty l).
Proof.
  unfold records_of_type. apply raises_only_filterM. intros x.
  apply raises_only_bind; [|intros ?; apply raises_only_ret].
  apply raises_only_lift. intros ?. apply getattr_library.
Qed.

Lemma raises_library_for_path d o id name dob p :
  raises_only (λ e, library_error e = true) (for_path d o id name dob p).
Proof.
  unfold for_path. destruct (Py.os_path_split p).
  apply raises_only_bind; [apply raises_library_os_makedirs | intros _].
  apply raises_only_bind; [by intros ??? | intros []]; [|apply raises_only_ret].
  apply raises_only_bind; [apply raises_library_anonymiseImageFile | intros ?].
  apply raises_library_save_as.
Qed.

Lemma raises_library_for_patient d o n i patient :
  raises_only (λ e, library_error e = true) (for_patient d o n i patient).
Proof.
  unfold for_patient.
  do 3 (apply raises_only_bind;
        [apply raises_only_lift; intros ?; apply getattr_library | intros ?]).
  do 3 (apply raises_only_bind;
        [apply raises_only_lift; intros ?; apply set_keyword_value_library | intros ?]).
  apply raises_only_bind; [apply raises_library_records_of_type | intros ?].
  apply raises_only_bind; [|intros ?; apply raises_only_ret].
  apply raises_only_for_. intros study. unfold for_study.
  apply raises_only_bind; [apply raises_library_records_of_type | intros ?].
  apply raises_only_for_. intros series. unfold for_series.
  apply raises_only_bind; [apply raises_library_records_of_type | intros ?].
  apply raises_only_bind.
  { apply raises_only_mapM. intros ?. apply raises_only_lift. intros ?.
    apply getitem_library. }
  intros ?. apply raises_only_bind.
  { apply raises_only_mapM. intros ?. apply raises_only_lift. intros ?.
    apply segments_library. }
  intros ?. apply raises_only_for_. intros ?. apply raises_library_for_path.
Qed.

Lemma raises_library_anonymiseDICOMDIR fname output_path :
  raises_only (λ e, library_error e = true) (anonymiseDICOMDIR fname output_path).
Proof.
  unfold anonymiseDICOMDIR.
  apply raises_only_bind; [apply raises_library_read_dicomdir | intros ?].
  destruct (Py.os_path_split fname).
  apply raises_only_bind; [|intros ?; apply raises_only_ret].
  apply raises_only_mapM_enumerate. intros ? ?. apply raises_library_for_patient.
Qed.

Lemma raises_anonymiseDirectory fuel fname output_path :
  raises_only (λ e, library_error e = true ∨ e = OutOfFuel)
              (anonymiseDirectory fuel fname output_path).
Proof.
  unfold anonymiseDirectory. apply raises_only_walk_for; [by right|].
  intros top dirs nondirs.
  apply (raises_only_weaken (λ e, library_error e = true)); [by left|].
  unfold for_directory. destruct (_ && _); [|apply raises_only_ret].
  destruct (Py.os_path_relpath top fname); [|by apply raises_only_raise].
  apply raises_only_bind; [apply raises_library_os_makedirs | intros _].
  apply raises_only_for_. intros f. unfold for_image_filename.
  apply raises_only_bind; [apply raises_library_anonymiseImageFile | intros ?].
  apply raises_library_save_as.
Qed.

Lemma raises_main_dispatch fuel input_path output_path :
  raises_only (λ e, ∀ code, e ≠ SystemExit code)
              (main_dispatch fuel input_path output_path).
Proof.
  intros w e w' H. rewrite main_dispatch_run in H. cbv zeta in H.
  assert (∀ e0, library_error e0 = true → ∀ code, e0 ≠ SystemExit code) as Hlib
    by (by intros [] ? ?).
  assert (∀ fname, raises_only (λ e, ∀ code, e ≠ SystemExit code)
                     (index_mode fname output_path)) as Hindex.
  { intros fname. apply (raises_only_weaken (λ e, library_error e = true)); [done|].
    unfold index_mode.
    apply raises_only_bind; [apply raises_library_anonymiseDICOMDIR | intros ?].
    apply raises_only_bind; [apply raises_library_save_as | intros ?].
    apply raises_only_ret. }
  destruct (_ && _ && _); [by eapply Hindex|].
  destruct (_ && _); [by eapply Hindex|].
  assert (raises_only (λ e, ∀ code, e ≠ SystemExit code)
            (directory_mode fuel input_path output_path)) as Hdirectory.
  { unfold directory_mode.
    apply raises_only_bind; [|intros ?; apply raises_only_ret].
    eapply raises_only_weaken; [|apply raises_anonymiseDirectory].
    intros e0 [He0 | ->]; [by apply Hlib | done]. }
  assert (raises_only (λ e, ∀ code, e ≠ SystemExit code)
            (single_file_mode input_path output_path)) as Hsingle.
  { apply (raises_only_weaken (λ e, library_error e = true)); [done|].
    unfold single_file_mode.
    apply raises_only_bind; [apply raises_library_anonymiseImageFile | intros ?].
    apply raises_only_bind; [apply raises_library_save_as | intros ?].
    apply raises_only_ret. }
  destruct (_ && _); [by eapply Hdirectory|].
  destruct (path_isfile w input_path); [by eapply Hsingle|].
  injection H as <- _. done.
Qed.

Lemma raises_main_checks input_path output_path :
  raises_only (λ e, ∀ code, e ≠ SystemExit code) (main_checks input_path output_path).
Proof.
  unfold main_checks.
  apply raises_only_bind; [by intros ??? | intros e1].
  apply raises_only_bind.
  { destruct (negb e1); [by apply raises_only_raise | apply raises_only_ret]. }
  intros _. apply raises_only_bind; [by intros ??? | intros e2].
  destruct e2; [|apply raises_only_ret].
  apply raises_only_bind; [by intros ??? | intros d].
  destruct (negb d); [by apply raises_only_raise|].
  eapply raises_only_weaken; [|apply raises_library_shutil_rmtree].
  by intros [] ? ?.
Qed.

(** X9.  [main] raises [SystemExit] exactly when [sys.argv] has fewer than
    three entries, with status 1 and the world untouched; and when it
    returns, it returns 0 and [sys.argv] had at least three entries. *)
Theorem main_exit_status (fuel : nat) (argv : list string) (w w' : World) :
  (∀ code, main fuel argv w = (Raise (SystemExit code), w') ↔
           (List.length argv < 3)%nat ∧ code = 1%Z ∧ w' = w) ∧
  (∀ z, main fuel argv w = (Ok z, w') → z = 0%Z ∧ (3 ≤ List.length argv)%nat).
Proof.
  destruct argv as [|prog [|input_path [|output_path rest]]];
    try (split;
         [ intros code; split;
           [ intros [= <- <-]; cbn; split_and!; [lia | done | done]
           | intros (_ & -> & ->); done ]
         | intros z [=] ]).
  split.
  - intros code. split; [|cbn; lia].
    intros H. exfalso. revert H. unfold main.
    assert (raises_only (λ e, ∀ code, e ≠ SystemExit code)
              (main_checks input_path output_path ;; os_makedirs output_path ;;
               main_dispatch fuel input_path output_path)) as Hr.
    { apply raises_only_bind; [apply raises_main_checks | intros _].
      apply raises_only_bind; [|intros _; apply raises_main_dispatch].
      eapply raises_only_weaken; [|apply raises_library_os_makedirs].
      by intros [] ? ?. }
    intros H. by eapply Hr.
  - intros z H. split; [|cbn; lia]. unfold main in H.
    apply bind_Ok in H as (? & ? & _ & H). apply bind_Ok in H as (? & w2 & _ & H).
    rewrite main_dispatch_run in H. cbv zeta in H.
    unfold index_mode, directory_mode, single_file_mode, unsupported_input in H.
    repeat match type of H with
           | (if ?b then _ else _) = _ => destruct b
           end;
      repeat (apply bind_Ok in H as (? & ? & _ & H));
      first [ by apply ret_Ok in H as [-> _] | discriminate H ].
Qed.

Lemma main_exit_status_witness :
  main 8 ["anonymize.py"; "scan.dcm"] Sample.w_single
  = (Raise (SystemExit 1), Sample.w_single).
Proof.
  apply (main_exit_status 8 ["anonymize.py"; "scan.dcm"] Sample.w_single Sample.w_single).
  split_and!; [cbn; lia | reflexivity | reflexivity].
Defined.

(** ** Only redacted data sets are saved *)

Lemma redaction_Some_tags id name dob t v :
  redaction id name dob t = Some v → t ∈ mandatory_tags ∨ t ∈ optional_tags.
Proof.
  unfold redaction, mandatory_tags, optional_tags. intros H.
  repeat (case_decide; [subst t; set_solver |]). done.
Qed.

Lemma redacted_anonymised_elements id name dob ds :
  (∀ t, t ∈ mandatory_tags → is_Some (ds !! t)) →
  redacted id name dob (anonymised_elements id name dob ds).
Proof.
  intros Hm t v Hr. unfold value_at. rewrite lookup_anonymised_elements, Hr.
  destruct (ds !! t) as [e|] eqn:He; [by left | right]. split; [done|].
  destruct (redaction_Some_tags _ _ _ _ _ Hr) as [Ht | Ht]; [|done].
  destruct (Hm _ Ht) as [? ?]. congruence.
Qed.

Lemma emits_redacted_save (P : string * FileDataset → Prop) fname id name dob dst :
  (∀ p r, redacted id name dob (elements r) → P (p, r)) →
  emits P (instance <- anonymiseImageFile fname id name dob ;; save_as instance dst).
Proof.
  intros HP.
  apply emits_bind; [apply emits_anonymiseImageFile | intros wa instance wb Hrun].
  apply emits_save_as, HP.
  apply anonymiseImageFile_Ok in Hrun as (instance0 & _ & _ & Hm & ->).
  by apply redacted_anonymised_elements.
Qed.

Lemma emits_redacted_for_patient (P : string * FileDataset → Prop) d o n i patient :
  (∀ p r, redacted (new_identifier n i) (new_identifier n i) "99991231" (elements r) →
          P (p, r)) →
  emits P (for_patient d o n i patient).
Proof.
  intros HP. unfold for_patient.
  do 6 (apply emits_bind; [apply emits_lift | intros ? ? ? _]).
  apply emits_bind; [apply emits_silent, records_of_type_saved | intros ? ? ? _].
  apply emits_bind; [|intros; apply emits_ret].
  apply emits_for_. intros study _. unfold for_study.
  apply emits_bind; [apply emits_silent, records_of_type_saved | intros ? ? ? _].
  apply emits_for_. intros series _. unfold for_series.
  apply emits_bind; [apply emits_silent, records_of_type_saved | intros ? ? ? _].
  apply emits_bind; [apply emits_mapM; intros; apply emits_lift | intros ? ? ? _].
  apply emits_bind; [apply emits_mapM; intros; apply emits_lift | intros ? ? ? _].
  apply emits_for_. intros p _. unfold for_path.
  destruct (Py.os_path_split p).
  apply emits_bind; [apply emits_os_makedirs | intros ? ? ? _].
  apply emits_bind; [apply emits_os_path_isfile | intros ? [] ? _]; [|apply emits_ret].
  by apply emits_redacted_save.
Qed.

Lemma emits_mapM_enumerate {A B} P (f : nat → A → M B) (l : list A) :
  (∀ i x, emits P (f i x)) → ∀ i, emits P (mapM_enumerate f i l).
Proof.
  intros Hb. induction l as [|x l IH]; intros i; cbn [mapM_enumerate].
  - apply emits_ret.
  - apply emits_bind; [apply Hb | intros ? ? ? _].
    apply emits_bind; [apply IH | intros; apply emits_ret].
Qed.

(** X10.  Whatever its outcome (also when it raises half way), every data set
    that [anonymiseDICOMDIR] saves is redacted: its patient identifier
    and name are "REMOVED" or "REMOVED - i", its birth date is
    "99991231", its institution name, institution address and station
    name are "REMOVED", and each of the three optional tags holds
    "REMOVED" or is absent. *)
Theorem anonymiseDICOMDIR_saves_only_redacted (fname output_path : string)
    (w w' : World) (r : Result FileDataset) :
  anonymiseDICOMDIR fname output_path w = (r, w') →
  ∃ evs,
    saved w' = (saved w ++ evs)%list ∧
    Forall (λ ev, ∃ id,
              (id = "REMOVED" ∨ ∃ i : nat, id = "REMOVED - " +:+ pretty i) ∧
              redacted id id "99991231" (elements ev.2)) evs.
Proof.
  revert w r w'.
  change (emits (λ ev, ∃ id,
                   (id = "REMOVED" ∨ ∃ i : nat, id = "REMOVED - " +:+ pretty i) ∧
                   redacted id id "99991231" (elements ev.2))
                (anonymiseDICOMDIR fname output_path)).
  unfold anonymiseDICOMDIR.
  apply emits_bind.
  { apply emits_silent. intros ??? H. by rewrite (stateless_read_dicomdir _ _ _ _ H). }
  intros ? dicom_dir ? _. destruct (Py.os_path_split fname).
  apply emits_bind; [|intros; apply emits_ret].
  apply emits_mapM_enumerate. intros i patient.
  apply emits_redacted_for_patient. intros p r Hr.
  exists (new_identifier (List.length (default [] (patient_records dicom_dir))) i).
  split; [|done]. unfold new_identifier, Py.str. case_bool_decide; eauto.
Qed.

Lemma anonymiseDICOMDIR_saves_only_redacted_witness :
  ∃ evs,
    saved (anonymiseDICOMDIR "d/DICOMDIR" "out" Sample.w_index).2
      = (saved Sample.w_index ++ evs)%list ∧
    Forall (λ ev, ∃ id,
              (id = "REMOVED" ∨ ∃ i : nat, id = "REMOVED - " +:+ pretty i) ∧
              redacted id id "99991231" (elements ev.2)) evs.
Proof.
  eapply (anonymiseDICOMDIR_saves_only_redacted "d/DICOMDIR" "out" Sample.w_index).
  apply surjective_pairing.
Defined.

(** X11.  Whatever its outcome (also when it raises half way), every data set
    that [anonymiseDirectory] saves is redacted with the identity
    ("REMOVED", "REMOVED", "99991231"): the six unconditional elements
    hold their replacement and each of the three optional tags holds
    "REMOVED" or is absent. *)
Theorem anonymiseDirectory_saves_only_redacted (fuel : nat)
    (fname output_path : string) (w w' : World) (r : Result unit) :
  anonymiseDirectory fuel fname output_path w = (r, w') →
  ∃ evs,
    saved w' = (saved w ++ evs)%list ∧
    Forall (λ ev, redacted "REMOVED" "REMOVED" "99991231" (elements ev.2)) evs.
Proof.
  revert w r w'.
  change (emits (λ ev, redacted "REMOVED" "REMOVED" "99991231" (elements ev.2))
                (anonymiseDirectory fuel fname output_path)).
  unfold anonymiseDirectory. apply emits_walk_for. intros top dirs nondirs.
  unfold for_directory. destruct (_ && _); [|apply emits_ret].
  destruct (Py.os_path_relpath top fname); [|apply emits_raise].
  apply emits_bind; [apply emits_os_makedirs | intros ? ? ? _].
  apply emits_for_. intros f _. unfold for_image_filename.
  by apply emits_redacted_save.
Qed.

Lemma anonymiseDirectory_saves_only_redacted_witness :
  ∃ evs,
    saved (anonymiseDirectory 8 "d" "out" Sample.w_tree).2
      = (saved Sample.w_tree ++ evs)%list ∧
    Forall (λ ev, redacted "REMOVED" "REMOVED" "99991231" (elements ev.2)) evs.
Proof.
  eapply (anonymiseDirectory_saves_only_redacted 8 "d" "out" Sample.w_tree).
  apply surjective_pairing.
Defined.

(** ** Saving and reading back *)

Lemma tree_write_lookup cp : ∀ new t t',
  tree_write cp new t = Some t' → tree_lookup cp t' = Some new.
Proof.
  induction cp as [|c cp IH]; intros new t t' Hw; [done|].
  destruct t as [| |es]; try (by destruct cp).
  destruct cp as [|c' cp].
  - cbn in Hw. injection Hw as <-. by rewrite tree_lookup_cons, lookup_insert_eq.
  - rewrite tree_write_deeper in Hw.
    destruct (es !! c) as [child|]; cbn [mbind option_bind] in Hw; [|done].
    destruct (tree_write (c' :: cp) new child) as [child'|] eqn:Hw';
      cbn [mbind option_bind] in Hw; [|done].
    injection Hw as <-. rewrite tree_lookup_cons, lookup_insert_eq. cbn.
    by eapply IH.
Qed.

(** What [save_as] wrote to a regular file, [dcmread] reads back. *)
Lemma save_as_dcmread f p w w' :
  save_as f p w = (Ok tt, w') → path_isfile w' p = true →
  dcmread p w' = (Ok f, w').
Proof.
  unfold save_as, path_isfile, dcmread, lookup_path. intros Hs Hf.
  destruct (resolve p) as [[cp d]|]; [|discriminate].
  assert (∀ t, tree_write cp (File (Dicom f)) (fs w) = Some t →
               w' = {| fs := t; saved := (saved w ++ [(p, f)])%list |} → d = false →
               match tree_lookup cp (fs w') with
               | Some n => Some (n, d)
               | None => None
               end = Some (File (Dicom f), false)) as Hwrite.
  { intros t Hw -> ->. cbn [fs]. by rewrite (tree_write_lookup _ _ _ _ Hw). }
  destruct (tree_lookup cp (fs w)) as [[c| |es]|] eqn:Hl.
  - destruct d; [discriminate|].
    destruct (tree_write cp (File (Dicom f)) (fs w)) as [t|] eqn:Hw; [|discriminate].
    injection Hs as <-. by rewrite (Hwrite t eq_refl eq_refl eq_refl).
  - destruct d; [discriminate|]. injection Hs as <-. cbn [fs] in Hf.
    by rewrite Hl in Hf.
  - discriminate.
  - destruct d; [discriminate|].
    destruct (tree_write cp (File (Dicom f)) (fs w)) as [t|] eqn:Hw; [|discriminate].
    injection Hs as <-. by rewrite (Hwrite t eq_refl eq_refl eq_refl).
Qed.

Lemma os_makedirs_dcmread_back p w w1 q r :
  os_makedirs p w = (Ok tt, w1) → dcmread q w1 = (Ok r, w1) →
  dcmread q w = (Ok r, w).
Proof.
  unfold os_makedirs. intros Hmk Hread.
  destruct (resolve p) as [[cp d]|]; [|discriminate].
  destruct (tree_mkdirs cp (fs w)) as [t|] eqn:Ht; [|discriminate].
  injection Hmk as <-. unfold dcmread, lookup_path in *. cbn [fs] in *.
  destruct (resolve q) as [[cq dq]|]; [|discriminate].
  destruct (tree_lookup cq t) as [[[bytes|f]| |es]|] eqn:Hl;
    try destruct dq; try discriminate.
  injection Hread as ->.
  apply (tree_mkdirs_other _ _ _ cq (File (Dicom r)) Ht) in Hl; [|done].
  by rewrite Hl.
Qed.

(** X12.  For a referenced image path whose source file exists, a completed
    step of the index traversal saves exactly one data set: the redaction
    of the data set read from the source file, at the mirror of the path
    under the output directory; and where that mirror is a regular file
    afterwards, reading it gives that data set back. *)
Theorem existing_image_is_anonymised
    (dicomdir_dirname output_path new_ID new_name new_dob p : string) (w w' : World) :
  path_isfile w (source_of dicomdir_dirname p) = true →
  for_path dicomdir_dirname output_path new_ID new_name new_dob p w = (Ok tt, w') →
  ∃ instance,
    let anonymised :=
      with_elements instance
        (anonymised_elements new_ID new_name new_dob (elements instance)) in
    dcmread (source_of dicomdir_dirname p) w = (Ok instance, w) ∧
    saved w' = (saved w ++ [(mirror_of output_path p, anonymised)])%list ∧
    (path_isfile w' (mirror_of output_path p) = true →
     dcmread (mirror_of output_path p) w' = (Ok anonymised, w')).
Proof.
  unfold for_path, source_of, mirror_of.
  destruct (Py.os_path_split p) as [dirname fname]. cbn [fst snd].
  intros Hf H. apply bind_Ok in H as ([] & w1 & Hmk & H).
  apply bind_Ok in H as (b & w1' & Hb & H). injection Hb as <- <-.
  rewrite (os_makedirs_isfile _ _ _ _ _ Hmk), Hf in H.
  apply bind_Ok in H as (instance' & w2 & Hrun & Hsave).
  apply anonymiseImageFile_Ok in Hrun as (instance & Hread & -> & _ & ->).
  exists instance. cbv zeta. split_and!.
  - by eapply os_makedirs_dcmread_back.
  - apply save_as_saved in Hsave as [[_ ->] | [[e [=]] _]].
    by rewrite (os_makedirs_saved _ _ _ _ Hmk).
  - intros Hf'. by eapply save_as_dcmread.
Qed.

Lemma existing_image_is_anonymised_witness :
  ∃ instance,
    dcmread (source_of "d" "IMG1") Sample.w_index = (Ok instance, Sample.w_index) ∧
    saved (for_path "d" "out" "REMOVED - 0" "REMOVED - 0" "99991231" "IMG1"
             Sample.w_index).2
    = (saved Sample.w_index ++
       [(mirror_of "out" "IMG1",
         with_elements instance
           (anonymised_elements "REMOVED - 0" "REMOVED - 0" "99991231"
              (elements instance)))])%list.
Proof.
  destruct (existing_image_is_anonymised "d" "out" "REMOVED - 0" "REMOVED - 0"
              "99991231" "IMG1" Sample.w_index
              (for_path "d" "out" "REMOVED - 0" "REMOVED - 0" "99991231" "IMG1"
                 Sample.w_index).2)
    as (instance & Hread & Hsaved & _).
  - vm_compute. reflexivity.
  - vm_compute. reflexivity.
  - exists instance. split; [exact Hread | exact Hsaved].
Defined.



(** X14.  [anonymiseDirectory] on a path that cannot be listed (it does not
    exist or is not a directory) or on an empty directory returns without
    an error and leaves the world as it was. *)
Theorem anonymiseDirectory_nothing_to_do (fuel : nat) (fname output_path : string)
    (w : World) :
  scandir w fname = None ∨ scandir w fname = Some ([], []) →
  anonymiseDirectory (S fuel) fname output_path w = (Ok tt, w).
Proof.
  unfold anonymiseDirectory. cbn [walk_for]. intros [-> | ->].
  - by destruct fuel.
  - cbn. by destruct fuel.
Qed.

Lemma anonymiseDirectory_nothing_to_do_witness :
  anonymiseDirectory 8 "fifo" "out" Sample.w_special = (Ok tt, Sample.w_special) ∧
  anonymiseDirectory 8 "d/empty" "out" Sample.w_tree = (Ok tt, Sample.w_tree).
Proof.
  split.
  - apply (anonymiseDirectory_nothing_to_do 7 "fifo" "out" Sample.w_special).
    left. vm_compute. reflexivity.
  - apply (anonymiseDirectory_nothing_to_do 7 "d/empty" "out" Sample.w_tree).
    right. vm_compute. reflexivity.
Defined.

(** X15.  The index that [anonymiseDICOMDIR] returns differs from the index it
    read only in the values of PatientID, PatientName and
    PatientBirthDate of the patient records: it has as many patient
    records, each with the children (studies, series, images) it had,
    with every other element unchanged and every element of the same VR;
    preamble, file meta information and top-level elements are those
    read. *)
Theorem anonymiseDICOMDIR_frame (fname output_path : string) (w w' : World)
    (dicom_dir : FileDataset) :
  anonymiseDICOMDIR fname output_path w = (Ok dicom_dir, w') →
  ∃ index records records',
    read_dicomdir fname w = (Ok index, w) ∧
    patient_records index = Some records ∧
    patient_records dicom_dir = Some records' ∧
    preamble dicom_dir = preamble index ∧
    file_meta dicom_dir = file_meta index ∧
    elements dicom_dir = elements index ∧
    List.length records' = List.length records ∧
    ∀ i patient patient',
      records !! i = Some patient → records' !! i = Some patient' →
      children patient' = children patient ∧
      (∀ t, t ∉ [(0x0010, 0x0020)%N; (0x0010, 0x0010)%N; (0x0010, 0x0030)%N] →
            record_ds patient' !! t = record_ds patient !! t) ∧
      (∀ t, VR <$> record_ds patient' !! t = VR <$> record_ds patient !! t).
Proof.
  unfold anonymiseDICOMDIR. intros H.
  apply bind_Ok in H as (index & w1 & Hread & H).
  pose proof Hread as Hread'.
  apply read_dicomdir_Ok in Hread' as (-> & _ & [records Hrec]).
  destruct (Py.os_path_split fname) as [d ?].
  apply bind_Ok in H as (records' & w2 & Hloop & H). apply ret_Ok in H as [-> ->].
  rewrite Hrec in Hloop. change (default [] (Some records)) with records in Hloop.
  apply mapM_enumerate_for_patient in Hloop as (evss & _ & Hlen & _ & Hk).
  exists index, records, records'. split_and!; try done.
  intros i patient patient' Hi Hi'.
  destruct (Hk _ _ Hi) as (_ & _ & Hr & _). rewrite Hi' in Hr. injection Hr as ->.
  cbn [children record_ds]. unfold patient_elements. split_and!; [done | |].
  - intros t Ht. rewrite !lookup_alter_ne; [done | | |];
      intros <-; apply Ht; set_solver.
  - intros t. rewrite !lookup_alter.
    repeat case_decide; subst; try done; by destruct (record_ds patient !! _).
Qed.
Lemma anonymiseDICOMDIR_frame_witness :
  ∃ index,
    read_dicomdir "d/DICOMDIR" Sample.w_index = (Ok index, Sample.w_index) ∧
    elements (Sample.value_of Sample.index2
                (anonymiseDICOMDIR "d/DICOMDIR" "out" Sample.w_index))
    = elements index.
Proof.
  destruct (anonymiseDICOMDIR_frame "d/DICOMDIR" "out" Sample.w_index
              (anonymiseDICOMDIR "d/DICOMDIR" "out" Sample.w_index).2
              (Sample.value_of Sample.index2
                 (anonymiseDICOMDIR "d/DICOMDIR" "out" Sample.w_index)))
    as (index & records & records' & Hread & _ & _ & _ & _ & Helements & _).
  - vm_compute. reflexivity.
  - exists index. split; [exact Hread | exact Helements].
Defined.
